(** * Botsy: the chat front end and the tenant-scoped vector store

  A shallow embedding of the React components of the Botsy dashboard
  ([TestBot], [ChatWidget], [Dashboard], [EditBot]) and of the vector
  store contract they talk to.

  React state is modelled by explicit state passing: a [useState] cell is
  a record field, a handler is a function from the state before the event
  to the state after it.  An [async] handler is cut at its [await]: the
  part that runs inside the event handler, and the part that runs when the
  request settles.  The network is an oracle that answers each request. *)

From Stdlib Require Import ZArith QArith Ascii String List Lia.
From stdpp Require Import base option list gmap strings sorting.

Set Warnings "-register-all".
Close Scope Q_scope.
Local Open Scope string_scope.
Local Open Scope list_scope.

(** ** JavaScript strings *)

Module Str.

(** Strings are sequences of 8-bit code units.  [String.prototype.trim]
    removes white space and line terminators; in this range these are
    TAB, LF, VT, FF, CR, SPACE and NBSP. *)
Definition is_space (c : ascii) : bool :=
  let n := N_of_ascii c in
  ((9 <=? n) && (n <=? 13) || (n =? 32) || (n =? 160))%N.

(** [!!s] for a string: the empty string is the only falsy one. *)
Definition truthy (s : string) : bool :=
  match s with
  | EmptyString => false
  | String _ _ => true
  end.

Fixpoint trimStart (s : string) : string :=
  match s with
  | EmptyString => EmptyString
  | String c s' => if is_space c then trimStart s' else s
  end.

Fixpoint trimEnd (s : string) : string :=
  match s with
  | EmptyString => EmptyString
  | String c s' =>
      let t := trimEnd s' in
      if is_space c && negb (truthy t) then EmptyString else String c t
  end.

Definition trim (s : string) : string := trimEnd (trimStart s).

(** [s.split(sep)] for a one-character separator. *)
Fixpoint split (sep : ascii) (s : string) : list string :=
  match s with
  | EmptyString => [EmptyString]
  | String c s' =>
      let r := split sep s' in
      if Ascii.eqb c sep then EmptyString :: r
      else match r with
           | h :: t => String c h :: t
           | [] => [String c EmptyString]
           end
  end.

Definition newline : ascii := ascii_of_nat 10.

End Str.

(** ** JavaScript values, as far as the handlers inspect them *)

Module Js.

(** The values that [JSON.parse] produces, [undefined] for a missing
    property, and the one inherited method the code can reach:
    [String.prototype.link]. *)
Inductive value : Type :=
| Undefined
| Null
| Bool (b : bool)
| Num (n : Z)
| Str (s : string)
| Arr (xs : list value)
| Obj (fields : list (string * value))
| Fun (name : string).

Definition truthy (v : value) : bool :=
  match v with
  | Undefined | Null => false
  | Bool b => b
  | Num n => negb (n =? 0)%Z
  | Str s => Str.truthy s
  | Arr _ | Obj _ | Fun _ => true
  end.

(** [a || b] *)
Definition or (a b : value) : value := if truthy a then a else b.

Fixpoint lookup (k : string) (fields : list (string * value)) : value :=
  match fields with
  | [] => Undefined
  | (k', v) :: rest => if String.eqb k k' then v else lookup k rest
  end.

(** [v.k], for the property names the handlers read ([metadata], [url],
    [source_url], [link], [title], [name], [filename]).  [None] is the
    [TypeError] raised on [undefined] and [null]. *)
Definition get (v : value) (k : string) : option value :=
  match v with
  | Undefined | Null => None
  | Obj fields => Some (lookup k fields)
  | Str _ => Some (if String.eqb k "link" then Fun "link" else Undefined)
  | Bool _ | Num _ | Arr _ | Fun _ => Some Undefined
  end.

End Js.

(** ** Requests sent through the axios client *)

Module Http.

Inductive method : Type := GET | POST | PUT | DELETE.

(** An uploaded [File], known by its name. *)
Record File : Type := { filename : string }.

Inductive body : Type :=
| NoBody
| Json (v : Js.value)
| FormData (fields : list (string * File)).

Record request : Type := {
  verb : method;
  url : string;
  data : body;
  headers : list (string * string)
}.

(** A rejected call; [detail] is [error.response?.data?.detail]. *)
Record error : Type := { detail : option string }.

(** What [await client.post(...)] does: throw, or give [response.data]. *)
Inductive outcome (A : Type) : Type :=
| Rejected (e : error)
| Resolved (response_data : A).
Arguments Rejected {A} e.
Arguments Resolved {A} response_data.

Definition post (u : string) (d : body) (h : list (string * string)) : request :=
  {| verb := POST; url := u; data := d; headers := h |}.

Definition put (u : string) (d : body) : request :=
  {| verb := PUT; url := u; data := d; headers := [] |}.

Definition get (u : string) : request :=
  {| verb := GET; url := u; data := NoBody; headers := [] |}.

End Http.

(** ** The chat page: types shared by [TestBot] and [ChatWidget] *)

Module Chat.

Inductive Role : Type := user | assistant.

(** [interface Message]; [legal_response] is [Js.Undefined] and [sources]
    is [None] on a turn built without them. *)
Record Message : Type := {
  role : Role;
  content : string;
  legal_response : Js.value;
  sources : option (list Js.value)
}.

Record MenuOption : Type := {
  option_name : string;
  prompt : string
}.

(** The bot record returned by [GET /api/bots/:id]; an optional field is
    [None] when it is missing or [null]. *)
Record Bot : Type := {
  name : string;
  avatar : option string;
  avatar_url : option string;
  description : option string;
  greeting_message : option string;
  menu_options : option (list MenuOption)
}.

(** Truthiness of an optional string: present and not empty. *)
Definition truthy (o : option string) : bool :=
  match o with
  | Some s => Str.truthy s
  | None => false
  end.

End Chat.

(** [response.data] of [POST /api/chat/:id]. *)
Module Response.

Record data : Type := {
  message : string;
  summary : option string;
  legal_response : Js.value;
  sources : option (list Js.value)
}.

End Response.

(** ** [TestBot]: the state cells and the handlers common to its versions *)

Module Page.
Import Chat.

(** The [useState] cells of the page. *)
Record State : Type := {
  messages : list Message;
  inputMessage : string;
  isLoading : bool;
  bot : option Bot;
  showSources : gmap nat bool;
  showMenu : bool
}.

Definition setMessages (f : list Message -> list Message) (st : State) : State :=
  {| messages := f (messages st); inputMessage := inputMessage st;
     isLoading := isLoading st; bot := bot st;
     showSources := showSources st; showMenu := showMenu st |}.

Definition setInputMessage (s : string) (st : State) : State :=
  {| messages := messages st; inputMessage := s;
     isLoading := isLoading st; bot := bot st;
     showSources := showSources st; showMenu := showMenu st |}.

Definition setIsLoading (b : bool) (st : State) : State :=
  {| messages := messages st; inputMessage := inputMessage st;
     isLoading := b; bot := bot st;
     showSources := showSources st; showMenu := showMenu st |}.

Definition setShowSources (m : gmap nat bool) (st : State) : State :=
  {| messages := messages st; inputMessage := inputMessage st;
     isLoading := isLoading st; bot := bot st;
     showSources := m; showMenu := showMenu st |}.

Definition setShowMenu (b : bool) (st : State) : State :=
  {| messages := messages st; inputMessage := inputMessage st;
     isLoading := isLoading st; bot := bot st;
     showSources := showSources st; showMenu := b |}.

Definition userMessage (c : string) : Message :=
  {| role := user; content := c; legal_response := Js.Undefined; sources := None |}.

Definition errorMessage : Message :=
  {| role := assistant;
     content := "Sorry, I encountered an error. Please try again.";
     legal_response := Js.Undefined; sources := None |}.

Definition greeting (g : string) : Message :=
  {| role := assistant; content := g; legal_response := Js.Undefined; sources := None |}.

Section SendMessage.

(** The [id] search parameter of the page. *)
Variable botId : string.

(** The body of the [try] after the [await]: the assistant turn built from
    [response.data], or [None] when building it throws. *)
Variable assistantMessage : Response.data -> option Message.

(** [messageContent || inputMessage] *)
Definition effective_content (messageContent : option string) (st : State) : string :=
  if truthy messageContent then default "" messageContent else inputMessage st.

(** [client.post(`/api/chat/${botId}`, { content: content })] *)
Definition chatRequest (c : string) : Http.request :=
  Http.post ("/api/chat/" ++ botId) (Http.Json (Js.Obj [("content", Js.Str c)])) [].

(** [sendMessage] up to its [await]: the state left by the event handler
    and the request it issued, if any. *)
Definition sendMessage_begin (messageContent : option string) (st : State)
  : State * option Http.request :=
  let c := effective_content messageContent st in
  if negb (Str.truthy (Str.trim c)) || isLoading st then (st, None)
  else
    let st1 := setMessages (fun prev => prev ++ [userMessage c]) st in
    let st2 := if negb (truthy messageContent) then setInputMessage "" st1 else st1 in
    (setIsLoading true st2, Some (chatRequest c)).

(** [sendMessage] from the point where the request settles: the rest of
    the [try], the [catch] and the [finally]. *)
Definition sendMessage_settle (o : Http.outcome Response.data) (st : State) : State :=
  let st1 :=
    match o with
    | Http.Resolved d =>
        match assistantMessage d with
        | Some m => setMessages (fun prev => prev ++ [m]) st
        | None => setMessages (fun prev => prev ++ [errorMessage]) st
        end
    | Http.Rejected _ => setMessages (fun prev => prev ++ [errorMessage]) st
    end in
  setIsLoading false st1.

(** The assistant turn that the settled request leaves in the history. *)
Definition answer (o : Http.outcome Response.data) : Message :=
  match o with
  | Http.Resolved d => default errorMessage (assistantMessage d)
  | Http.Rejected _ => errorMessage
  end.

(** One call of [sendMessage] run to completion against the answer [o]. *)
Definition sendMessage (messageContent : option string)
  (o : Http.outcome Response.data) (st : State) : State :=
  match sendMessage_begin messageContent st with
  | (st1, Some _) => sendMessage_settle o st1
  | (st1, None) => st1
  end.

(** A session: the end user sends one message after the other, each turn
    answered before the next is sent. *)
Definition session (turns : list (string * Http.outcome Response.data)) (st : State) : State :=
  fold_left (fun s t => sendMessage (Some (fst t)) (snd t) s) turns st.

End SendMessage.

End Page.

(** ** [TestBot], the version that renders [ChatWidget] *)

Module TestBot.
Import Chat Page.

(** The callback of [sources.map]: a source that already has
    [metadata.url] and [metadata.title] is kept, any other is rebuilt.
    [None] is the [TypeError] of reading a property of [null]. *)
Definition normalizeSource (src : Js.value) : option Js.value :=
  metadata ← Js.get src "metadata";
  keep ← (if Js.truthy metadata then
            u ← Js.get metadata "url";
            if Js.truthy u then
              t ← Js.get metadata "title";
              Some (Js.truthy t)
            else Some false
          else Some false);
  if (keep : bool) then Some src
  else
    url ← Js.get src "url";
    source_url ← Js.get src "source_url";
    link ← Js.get src "link";
    title ← Js.get src "title";
    name ← Js.get src "name";
    filename ← Js.get src "filename";
    Some (Js.Obj
      [("metadata", Js.Obj
         [("url", Js.or (Js.or (Js.or url source_url) link) (Js.Str ""));
          ("title", Js.or (Js.or (Js.or (Js.or title name) filename) url)
                      (Js.Str "Source"))])]).

(** [let sources = response.data.sources || []; if (sources.length > 0)
    sources = sources.map(...)] *)
Definition normalizeSources (raw : option (list Js.value)) : option (list Js.value) :=
  let sources := default [] raw in
  if (0 <? length sources)%nat then mapM normalizeSource sources else Some sources.

Definition assistantMessage (d : Response.data) : option Message :=
  srcs ← normalizeSources (Response.sources d);
  Some {| role := assistant; content := Response.message d;
          legal_response := Js.Undefined; sources := Some srcs |}.

Definition sendMessage_begin (botId : string) :=
  Page.sendMessage_begin botId.

Definition sendMessage_settle :=
  Page.sendMessage_settle assistantMessage.

Definition sendMessage (botId : string) :=
  Page.sendMessage botId assistantMessage.

Definition session (botId : string) :=
  Page.session botId assistantMessage.

(** A value is defined when it is not [undefined]. *)
Definition defined (v : Js.value) : bool :=
  match v with
  | Js.Undefined => false
  | _ => true
  end.

(** A source that [ChatWidget] can show: it has a [metadata] object with a
    [url] and a [title], and the title is not empty. *)
Definition hasUrlAndTitle (src : Js.value) : bool :=
  match Js.get src "metadata" with
  | Some (Js.Obj fields) =>
      defined (Js.lookup "url" fields) && Js.truthy (Js.lookup "title" fields)
  | _ => false
  end.

Definition clearChat (st : State) : State :=
  setShowMenu false (setShowSources ∅ (setInputMessage "" (setMessages (fun _ => []) st))).

Definition restartChat (st : State) : State :=
  let st1 := clearChat st in
  match bot st with
  | Some b =>
      if truthy (greeting_message b)
      then setMessages (fun _ => [greeting (default "" (greeting_message b))]) st1
      else st1
  | None => st1
  end.

End TestBot.

(** ** [TestBot], the version with the legal answer panel *)

Module TestBotLegal.
Import Chat Page.

Definition fallbackAnswer : string :=
  "I apologize, but I couldn't process your request.".

(** [response.data.message || response.data.summary || "I apologize, ..."] *)
Definition answerText (d : Response.data) : string :=
  if Str.truthy (Response.message d) then Response.message d
  else if truthy (Response.summary d) then default "" (Response.summary d)
  else fallbackAnswer.

Definition assistantMessage (d : Response.data) : option Message :=
  Some {| role := assistant; content := answerText d;
          legal_response := Response.legal_response d;
          sources := Some (default [] (Response.sources d)) |}.

Definition sendMessage_begin (botId : string) :=
  Page.sendMessage_begin botId.

Definition sendMessage_settle :=
  Page.sendMessage_settle assistantMessage.

Definition sendMessage (botId : string) :=
  Page.sendMessage botId assistantMessage.

End TestBotLegal.

(** ** [ChatWidget] *)

Module ChatWidget.
Import Chat.

Record State : Type := {
  isOpen : bool;
  inputValue : string;
  showSources : gmap nat bool
}.

(** The props [onSend], [onRestart] and [onClear], as the calls a handler
    makes on its parent. *)
Inductive Callback : Type :=
| onSend (message : string)
| onRestart
| onClear.

Definition handleSendMessage (w : State) : State * list Callback :=
  if Str.truthy (Str.trim (inputValue w))
  then ({| isOpen := isOpen w; inputValue := ""; showSources := showSources w |},
        [onSend (inputValue w)])
  else (w, []).

Definition handleMenuOptionClick (option : MenuOption) (w : State) : State * list Callback :=
  (w, [onSend (prompt option)]).

Definition handleRestart (w : State) : State * list Callback :=
  (w, [onRestart]).

Definition handleClear (w : State) : State * list Callback :=
  ({| isOpen := isOpen w; inputValue := ""; showSources := ∅ |}, [onClear]).

(** A rendered menu button: its text, and the option its [onClick] hands
    to [handleMenuOptionClick]. *)
Record Button : Type := {
  label : string;
  onClick : MenuOption
}.

(** [messages.length === 1 && messages[0].role === 'assistant' &&
    bot.menu_options && (<div>{bot.menu_options.map(...)}</div>)]:
    [None] when the block is not rendered. *)
Definition renderMenuOptions (bot : Bot) (messages : list Message) : option (list Button) :=
  if (length messages =? 1)%nat then
    match messages !! 0 with
    | Some m =>
        match role m with
        | assistant =>
            match menu_options bot with
            | Some options =>
                Some (map (fun o => {| label := option_name o; onClick := o |}) options)
            | None => None
            end
        | user => None
        end
    | None => None
    end
  else None.

(** The chat panel, with the menu block in it, is rendered under
    [{isOpen && (...)}]. *)
Definition render (w : State) (bot : Bot) (messages : list Message) : option (list Button) :=
  if isOpen w then renderMenuOptions bot messages else None.

(** The page [TestBot] mounts the widget with
    [onSend={(message) => sendMessage(message)}], [onRestart={restartChat}]
    and [onClear={clearChat}]. *)
Definition dispatch (botId : string) (cb : Callback) (st : Page.State)
  : Page.State * option Http.request :=
  match cb with
  | onSend message => TestBot.sendMessage_begin botId (Some message) st
  | onRestart => (TestBot.restartChat st, None)
  | onClear => (TestBot.clearChat st, None)
  end.

(** A click on a menu button of the mounted widget. *)
Definition clickMenuOption (botId : string) (option : MenuOption)
  (w : State) (st : Page.State) : State * Page.State * list Http.request :=
  let '(w1, calls) := handleMenuOptionClick option w in
  let '(st1, reqs) :=
    fold_left (fun acc cb =>
                 let '(s, rs) := dispatch botId cb (fst acc) in
                 (s, snd acc ++ match rs with Some r => [r] | None => [] end))
              calls (st, []) in
  (w1, st1, reqs).

End ChatWidget.

(** ** Handlers that issue several requests *)

Module Handler.

(** [response.data] of the bot endpoints, as far as the handlers read it:
    [data.id] after a bot is created, [data.avatar] after an avatar upload. *)
Record reply : Type := {
  id : string;
  avatar : string
}.

(** The back end: its answer to a request, given the requests it has
    already received. *)
Definition network : Type :=
  list Http.request -> Http.request -> Http.outcome reply.

(** The body of an [async] handler: it extends the log of requests issued
    so far, and either returns or throws. *)
Definition M (A : Type) : Type :=
  list Http.request -> list Http.request * Http.outcome A.

Definition ret {A : Type} (a : A) : M A :=
  fun log => (log, Http.Resolved a).

Definition bind {A B : Type} (m : M A) (k : A -> M B) : M B :=
  fun log =>
    match m log with
    | (log1, Http.Resolved a) => k a log1
    | (log1, Http.Rejected e) => (log1, Http.Rejected e)
    end.

(** [await client.post(...)] and the like. *)
Definition await (net : network) (r : Http.request) : M reply :=
  fun log => (log ++ [r], net log r).

(** [try { m } catch (error) { console.error(...) }] *)
Definition try_log {A : Type} (m : M A) : M unit :=
  fun log =>
    match m log with
    | (log1, _) => (log1, Http.Resolved tt)
    end.

(** A call that is not awaited: its request goes out, its answer is not
    waited for. *)
Definition fire (r : Http.request) : M unit :=
  fun log => (log ++ [r], Http.Resolved tt).

(** [for (const x of xs) { body(x) }] *)
Fixpoint for_each {X : Type} (xs : list X) (body : X -> M unit) : M unit :=
  match xs with
  | [] => ret tt
  | x :: rest => bind (body x) (fun _ => for_each rest body)
  end.

Definition quote : string := String (ascii_of_nat 34) EmptyString.

(** The emoji that opens the success banners, written by the bytes of its
    UTF-8 form; no handler looks into it. *)
Definition tada : string := "🎉".

Definition multipart : list (string * string) :=
  [("Content-Type", "multipart/form-data")].

(** [client.post(`/api/bots/${botId}/documents`, formData, ...)] *)
Definition documentRequest (botId : string) (file : Http.File) : Http.request :=
  Http.post ("/api/bots/" ++ botId ++ "/documents")
    (Http.FormData [("file", file)]) multipart.

(** [client.post(`/api/bots/${botId}/documents/url`, { url: url.trim() })] *)
Definition urlRequest (botId : string) (url : string) : Http.request :=
  Http.post ("/api/bots/" ++ botId ++ "/documents/url")
    (Http.Json (Js.Obj [("url", Js.Str (Str.trim url))])) [].

Definition uploadDocument (net : network) (botId : string) (file : Http.File) : M unit :=
  bind (await net (documentRequest botId file)) (fun _ => ret tt).

Definition submitUrl (net : network) (botId : string) (url : string) : M unit :=
  bind (await net (urlRequest botId url)) (fun _ => ret tt).

(** [urls.trim().split('\n').filter(url => url.trim())] *)
Definition urlList (urls : string) : list string :=
  List.filter (fun url => Str.truthy (Str.trim url)) (Str.split Str.newline (Str.trim urls)).

(** [if (selectedFiles && selectedFiles.length > 0) { for (...) { ... } }] *)
Definition uploadFiles (net : network) (botId : string)
  (selectedFiles : option (list Http.File)) : M unit :=
  match selectedFiles with
  | Some files =>
      if (0 <? length files)%nat then for_each files (uploadDocument net botId) else ret tt
  | None => ret tt
  end.

End Handler.

(** ** [Dashboard]: building a bot *)

Module Dashboard.
Import Handler.

Record State : Type := {
  botName : string;
  botDescription : string;
  selectedFiles : option (list Http.File);
  urls : string;
  isBuilding : bool;
  error : string;
  success : string
}.

Definition createBot (st : State) : Http.request :=
  Http.post "/api/bots/"
    (Http.Json (Js.Obj
      [("name", Js.Str (botName st));
       ("description",
         Js.Str (if Str.truthy (botDescription st) then botDescription st
                 else "A chatbot named " ++ botName st));
       ("system_prompt",
         Js.Str ("You are " ++ botName st ++
                 ", a helpful AI assistant. Answer questions based on the provided context."))]))
    [].

(** The [try] block of [handleBuildBot]. *)
Definition buildBot (net : network) (st : State) : M unit :=
  bind (await net (createBot st)) (fun botResponse =>
  let botId := id botResponse in
  bind (uploadFiles net botId (selectedFiles st)) (fun _ =>
  bind (if Str.truthy (Str.trim (urls st))
        then for_each (urlList (urls st)) (submitUrl net botId)
        else ret tt) (fun _ =>
  fire (Http.get "/api/bots/")))).

(** [handleBuildBot]: the state it leaves and the requests it issued. *)
Definition handleBuildBot (net : network) (st : State) : State * list Http.request :=
  if negb (Str.truthy (Str.trim (botName st))) then
    ({| botName := botName st; botDescription := botDescription st;
        selectedFiles := selectedFiles st; urls := urls st;
        isBuilding := isBuilding st; error := "Please enter a bot name";
        success := success st |}, [])
  else
    match buildBot net st [] with
    | (log, Http.Resolved _) =>
        ({| botName := ""; botDescription := ""; selectedFiles := None; urls := "";
            isBuilding := false; error := "";
            success := tada ++ " Bot " ++ quote ++ botName st ++ quote ++
                       " created successfully! You can now create a widget for it." |},
         log)
    | (log, Http.Rejected e) =>
        ({| botName := botName st; botDescription := botDescription st;
            selectedFiles := selectedFiles st; urls := urls st;
            isBuilding := false;
            error := if Chat.truthy (Http.detail e) then default "" (Http.detail e)
                     else "Failed to create bot. Please try again.";
            success := "" |},
         log)
    end.

End Dashboard.

(** ** [EditBot]: updating a bot *)

Module EditBot.
Import Handler.

Record State : Type := {
  botName : string;
  botDescription : string;
  greetingMessage : string;
  botAvatar : string;
  botAvatarFile : option Http.File;
  menuOptions : list Chat.MenuOption;
  selectedFiles : option (list Http.File);
  urls : string;
  isLoading : bool;
  error : string;
  success : string
}.

Definition menuOptionJson (o : Chat.MenuOption) : Js.value :=
  Js.Obj [("option_name", Js.Str (Chat.option_name o)); ("prompt", Js.Str (Chat.prompt o))].

Definition updateBot (botId avatarUrl : string) (st : State) : Http.request :=
  Http.put ("/api/bots/" ++ botId)
    (Http.Json (Js.Obj
      [("name", Js.Str (botName st));
       ("description",
         Js.Str (if Str.truthy (botDescription st) then botDescription st
                 else "A chatbot named " ++ botName st));
       ("greeting_message", Js.Str (greetingMessage st));
       ("avatar", Js.Str avatarUrl);
       ("menu_options", Js.Arr (map menuOptionJson (menuOptions st)))])).

(** The [try] block of [handleUpdateBot].  Each URL is posted under a
    [try]/[catch] of its own; the uploads are not. *)
Definition saveBot (net : network) (botId : string) (st : State) : M unit :=
  bind (match botAvatarFile st with
        | Some file =>
            bind (await net (Http.post ("/api/bots/" ++ botId ++ "/avatar")
                               (Http.FormData [("file", file)]) multipart))
                 (fun response => ret (avatar response))
        | None => ret (botAvatar st)
        end) (fun avatarUrl =>
  bind (await net (updateBot botId avatarUrl st)) (fun _ =>
  bind (uploadFiles net botId (selectedFiles st)) (fun _ =>
  bind (if Str.truthy (Str.trim (urls st))
        then for_each (urlList (urls st)) (fun url => try_log (submitUrl net botId url))
        else ret tt) (fun _ =>
  fire (Http.get ("/api/bots/" ++ botId)))))).

Definition withStatus (loading : bool) (err ok : string) (st : State) : State :=
  {| botName := botName st; botDescription := botDescription st;
     greetingMessage := greetingMessage st; botAvatar := botAvatar st;
     botAvatarFile := botAvatarFile st; menuOptions := menuOptions st;
     selectedFiles := selectedFiles st; urls := urls st;
     isLoading := loading; error := err; success := ok |}.

(** [handleUpdateBot]: the state it leaves and the requests it issued. *)
Definition handleUpdateBot (net : network) (botId : string) (st : State)
  : State * list Http.request :=
  if negb (Str.truthy (Str.trim (botName st))) then
    (withStatus (isLoading st) "Please enter a bot name" (success st) st, [])
  else
    match saveBot net botId st [] with
    | (log, Http.Resolved _) =>
        (withStatus false ""
           (tada ++ " Bot " ++ quote ++ botName st ++ quote ++ " updated successfully!") st,
         log)
    | (log, Http.Rejected e) =>
        (withStatus false
           (if Chat.truthy (Http.detail e) then default "" (Http.detail e)
            else "Failed to update bot. Please try again.") "" st,
         log)
    end.

End EditBot.

(** ** The vector store *)

Module VectorStore.

Definition vector : Type := list Q.

(** Modelled from the spec: the chunk record of the data model (section 3);
    the back end that declares it is not part of the sources at hand.  A
    chunk carries its own id, the id of the bot that owns it, its embedding
    and its metadata, with the owning document and the sequence index. *)
Record Metadata : Type := {
  document_id : string;
  sequence_index : nat;
  text : string;
  source_type : string;
  source_identifier : string;
  title : string;
  page : option nat
}.

(** Modelled from the spec: the chunk of section 3, with the denormalized
    id of the bot that owns it. *)
Record Chunk : Type := {
  chunk_id : string;
  bot_id : string;
  embedding : vector;
  metadata : Metadata
}.

(** Modelled from the spec: the persisted chunk table, one row per chunk
    of a bot, indexed on the bot id (section 6). *)
Definition Store : Type := gmap (string * string) Chunk.

(** The rows of the table. *)
Definition rows (s : Store) : list Chunk := (map_to_list s).*2.

(** Modelled from the spec: [upsert(bot_id, chunk_id, vector, metadata)]
    of section 4.4; the row of that chunk of that bot is written or
    replaced. *)
Definition upsert (b c : string) (v : vector) (m : Metadata) (s : Store) : Store :=
  <[(b, c) := {| chunk_id := c; bot_id := b; embedding := v; metadata := m |}]> s.

(** Modelled from the spec: [delete(bot_id, document_id)] of section 4.4
    removes all chunks of that document. *)
Definition delete (b d : string) (s : Store) : Store :=
  filter (fun kv => ¬ (bot_id kv.2 = b ∧ document_id (metadata kv.2) = d)) s.

(** Modelled from the spec: [delete_bot(bot_id)] of section 4.4 removes
    all chunks of that bot. *)
Definition delete_bot (b : string) (s : Store) : Store :=
  filter (fun kv => bot_id kv.2 ≠ b) s.

Section Search.

(** The similarity metric: cosine similarity, or a monotonic transform of
    it.  A higher score is more relevant. *)
Variable similarity : vector -> vector -> Q.

(** Modelled from the spec: the ranking of section 4.4, by decreasing
    score, ties broken by the sequence index of the chunk. *)
Definition ranks_before (q : vector) (x y : Chunk) : bool :=
  let sx := similarity q (embedding x) in
  let sy := similarity q (embedding y) in
  if Qle_bool sy sx
  then if Qle_bool sx sy
       then (sequence_index (metadata x) <=? sequence_index (metadata y))%nat
       else true
  else false.

Definition before (q : vector) : relation Chunk :=
  fun x y => ranks_before q x y = true.

#[local] Instance before_dec (q : vector) : RelDecision (before q).
Proof. intros x y. unfold before. apply _. Defined.

(** Modelled from the spec: [search(bot_id, query_vector, top_k)] of
    section 4.4: the chunks of the bot, ranked, at most [top_k] of them,
    each with its score. *)
Definition search (b : string) (q : vector) (top_k : nat) (s : Store) : list (Chunk * Q) :=
  let mine := filter (fun c => bot_id c = b) (rows s) in
  let ranked := merge_sort (before q) mine in
  (fun c => (c, similarity q (embedding c))) <$> take top_k ranked.

End Search.

(** The documents that have a chunk of bot [b] in the store. *)
Definition documents (b : string) (s : Store) : gset string :=
  list_to_set ((fun c => document_id (metadata c))
                 <$> filter (fun c => bot_id c = b) (rows s)).

(** The states of the store: what the operations build from the empty
    table. *)
Inductive reachable : Store -> Prop :=
| reach_empty : reachable ∅
| reach_upsert b c v m s : reachable s -> reachable (upsert b c v m s)
| reach_delete b d s : reachable s -> reachable (delete b d s)
| reach_delete_bot b s : reachable s -> reachable (delete_bot b s).

(** A dot product, as the metric of the examples. *)
Fixpoint dot (u v : vector) : Q :=
  match u, v with
  | x :: u', y :: v' => Qplus (Qmult x y) (dot u' v')
  | _, _ => 0%Q
  end.

End VectorStore.

(** ** Sample data *)

Module Sample.
Import Chat.

Definition pricing : MenuOption :=
  {| option_name := "Pricing";
     prompt := "Explain every pricing plan and its limits in detail." |}.

Definition helper : Bot :=
  {| name := "Helper"; avatar := None; avatar_url := None; description := None;
     greeting_message := Some "Hi, how can I help?";
     menu_options := Some [pricing] |}.

Definition silent : Bot :=
  {| name := "Silent"; avatar := None; avatar_url := None; description := None;
     greeting_message := None; menu_options := None |}.

(** The page after [loadBot] has shown the greeting of [helper]. *)
Definition greeted : Page.State :=
  {| Page.messages := [Page.greeting "Hi, how can I help?"];
     Page.inputMessage := ""; Page.isLoading := false; Page.bot := Some helper;
     Page.showSources := ∅; Page.showMenu := false |}.

(** The page of [helper] in the middle of a conversation. *)
Definition talking : Page.State :=
  {| Page.messages := [Page.greeting "Hi, how can I help?"; Page.userMessage "Hello"];
     Page.inputMessage := "draft"; Page.isLoading := false; Page.bot := Some helper;
     Page.showSources := {[ 1%nat := true ]}; Page.showMenu := true |}.

(** The page of a bot without greeting, a request in flight. *)
Definition waiting : Page.State :=
  {| Page.messages := [Page.userMessage "Hello"];
     Page.inputMessage := ""; Page.isLoading := true; Page.bot := Some silent;
     Page.showSources := ∅; Page.showMenu := false |}.

Definition closed : ChatWidget.State :=
  {| ChatWidget.isOpen := false; ChatWidget.inputValue := ""; ChatWidget.showSources := ∅ |}.

Definition opened : ChatWidget.State :=
  {| ChatWidget.isOpen := true; ChatWidget.inputValue := ""; ChatWidget.showSources := ∅ |}.

Definition timeout : Http.error := {| Http.detail := None |}.

(** A chat answer with one source that is complete and one that has only
    a file name. *)
Definition refund : Response.data :=
  {| Response.message := "Our refund window is 30 days.";
     Response.summary := None;
     Response.legal_response := Js.Undefined;
     Response.sources :=
       Some [Js.Obj [("metadata", Js.Obj [("url", Js.Str "https://shop.example/refunds");
                                          ("title", Js.Str "Refunds")])];
             Js.Obj [("filename", Js.Str "policy.pdf")]] |}.

Definition a_pdf : Http.File := {| Http.filename := "a.pdf" |}.
Definition b_pdf : Http.File := {| Http.filename := "b.pdf" |}.

(** A back end that rejects the upload of [a.pdf] and the page
    [https://down.example], and accepts everything else. *)
Definition flaky : Handler.network :=
  fun _ r =>
    match Http.data r with
    | Http.FormData [(_, f)] =>
        if String.eqb (Http.filename f) "a.pdf"
        then Http.Rejected {| Http.detail := Some "Unsupported file type" |}
        else Http.Resolved {| Handler.id := "bot-7"; Handler.avatar := "" |}
    | Http.Json (Js.Obj [("url", Js.Str u)]) =>
        if String.eqb u "https://down.example"
        then Http.Rejected {| Http.detail := None |}
        else Http.Resolved {| Handler.id := "bot-7"; Handler.avatar := "" |}
    | _ => Http.Resolved {| Handler.id := "bot-7"; Handler.avatar := "" |}
    end.

Definition two_files : Dashboard.State :=
  {| Dashboard.botName := "Shop"; Dashboard.botDescription := "";
     Dashboard.selectedFiles := Some [a_pdf; b_pdf];
     Dashboard.urls := "https://up.example";
     Dashboard.isBuilding := false; Dashboard.error := ""; Dashboard.success := "" |}.

Definition two_urls : EditBot.State :=
  {| EditBot.botName := "Shop"; EditBot.botDescription := "Shop assistant";
     EditBot.greetingMessage := "Hi"; EditBot.botAvatar := "";
     EditBot.botAvatarFile := None; EditBot.menuOptions := [];
     EditBot.selectedFiles := None;
     EditBot.urls := "https://down.example" ++ String Str.newline "https://up.example";
     EditBot.isLoading := false; EditBot.error := ""; EditBot.success := "" |}.

Definition edit_two_files : EditBot.State :=
  {| EditBot.botName := "Shop"; EditBot.botDescription := "Shop assistant";
     EditBot.greetingMessage := "Hi"; EditBot.botAvatar := "";
     EditBot.botAvatarFile := None; EditBot.menuOptions := [];
     EditBot.selectedFiles := Some [a_pdf; b_pdf];
     EditBot.urls := "";
     EditBot.isLoading := false; EditBot.error := ""; EditBot.success := "" |}.

Definition page_of (doc : string) (i : nat) (t : string) : VectorStore.Metadata :=
  {| VectorStore.document_id := doc; VectorStore.sequence_index := i;
     VectorStore.text := t; VectorStore.source_type := "file";
     VectorStore.source_identifier := doc; VectorStore.title := doc;
     VectorStore.page := None |}.

(** A store with the chunks of two bots, after one document of the first
    bot was deleted. *)
Definition two_tenants : VectorStore.Store :=
  VectorStore.delete "bot-7" "old.pdf"
    (VectorStore.upsert "bot-7" "c1" [1; 0]%Q (page_of "refunds.pdf" 0 "Our refund window is 30 days.")
       (VectorStore.upsert "bot-9" "c1" [1; 0]%Q (page_of "salaries.pdf" 0 "Salaries are confidential.")
          (VectorStore.upsert "bot-7" "c0" [0; 1]%Q (page_of "old.pdf" 0 "Outdated.")
             ∅))).

Definition refund_chunk : VectorStore.Chunk :=
  {| VectorStore.chunk_id := "c1"; VectorStore.bot_id := "bot-7";
     VectorStore.embedding := [1; 0]%Q;
     VectorStore.metadata := page_of "refunds.pdf" 0 "Our refund window is 30 days." |}.

End Sample.

(** ** [ChatWidget] mounted in [TestBot] *)

Module Mounted.
Import Chat.

(** The widget and the page that mounts it. *)
Record State : Type := {
  widget : ChatWidget.State;
  page : Page.State
}.

(** [loadBot] of [TestBot] once [GET /api/bots/:id] has settled: the page
    it leaves, and the route it navigates to, if any. *)
Definition loadBot_settle (o : Http.outcome Bot) (st : Page.State)
  : Page.State * option string :=
  match o with
  | Http.Resolved data =>
      let st1 :=
        {| Page.messages := Page.messages st; Page.inputMessage := Page.inputMessage st;
           Page.isLoading := Page.isLoading st; Page.bot := Some data;
           Page.showSources := Page.showSources st; Page.showMenu := Page.showMenu st |} in
      (if truthy (greeting_message data)
       then Page.setMessages
              (fun _ => [Page.greeting (default "" (greeting_message data))]) st1
       else st1,
       None)
  | Http.Rejected _ => (st, Some "/dashboard")
  end.

(** The state of [TestBot] when it mounts. *)
Definition initialPage : Page.State :=
  {| Page.messages := []; Page.inputMessage := ""; Page.isLoading := false;
     Page.bot := None; Page.showSources := ∅; Page.showMenu := false |}.

(** The state of [ChatWidget] when it mounts. *)
Definition initialWidget : ChatWidget.State :=
  {| ChatWidget.isOpen := false; ChatWidget.inputValue := "";
     ChatWidget.showSources := ∅ |}.

(** [setShowSources(prev => ({ ...prev, [messageIndex]: !prev[messageIndex] }))] *)
Definition toggleSources (messageIndex : nat) (w : ChatWidget.State) : ChatWidget.State :=
  {| ChatWidget.isOpen := ChatWidget.isOpen w;
     ChatWidget.inputValue := ChatWidget.inputValue w;
     ChatWidget.showSources :=
       <[messageIndex := negb (default false (ChatWidget.showSources w !! messageIndex))]>
         (ChatWidget.showSources w) |}.

(** [showSources[index] && (...)]: whether the sources of a message are
    unfolded. *)
Definition sourcesShown (index : nat) (w : ChatWidget.State) : bool :=
  default false (ChatWidget.showSources w !! index).

(** The calls a widget handler made on the page, run in order. *)
Definition deliver (botId : string) (calls : list ChatWidget.Callback) (st : Page.State)
  : Page.State * list Http.request :=
  fold_left (fun acc cb =>
               let '(s, rs) := ChatWidget.dispatch botId cb (fst acc) in
               (s, snd acc ++ match rs with Some r => [r] | None => [] end))
            calls (st, []).

(** What the end user and the network can do to the mounted widget. *)
Inductive Event : Type :=
| Open
| Close
| Type_ (text : string)
| Submit
| ClickOption (option : MenuOption)
| ToggleSources (messageIndex : nat)
| Clear
| Restart
| Settle (o : Http.outcome Response.data).

Definition withWidget (m : State) (r : ChatWidget.State * list ChatWidget.Callback)
  (botId : string) : State * list Http.request :=
  let '(p1, reqs) := deliver botId (snd r) (page m) in
  ({| widget := fst r; page := p1 |}, reqs).

Definition setIsOpen (b : bool) (w : ChatWidget.State) : ChatWidget.State :=
  {| ChatWidget.isOpen := b; ChatWidget.inputValue := ChatWidget.inputValue w;
     ChatWidget.showSources := ChatWidget.showSources w |}.

Definition setInputValue (s : string) (w : ChatWidget.State) : ChatWidget.State :=
  {| ChatWidget.isOpen := ChatWidget.isOpen w; ChatWidget.inputValue := s;
     ChatWidget.showSources := ChatWidget.showSources w |}.

(** One event: the state it leaves and the requests it sends.  The answer
    of a chat request arrives only while the request is in flight. *)
Definition step (botId : string) (m : State) (e : Event) : State * list Http.request :=
  match e with
  | Open => ({| widget := setIsOpen true (widget m); page := page m |}, [])
  | Close => ({| widget := setIsOpen false (widget m); page := page m |}, [])
  | Type_ text => ({| widget := setInputValue text (widget m); page := page m |}, [])
  | Submit => withWidget m (ChatWidget.handleSendMessage (widget m)) botId
  | ClickOption option =>
      withWidget m (ChatWidget.handleMenuOptionClick option (widget m)) botId
  | ToggleSources i => ({| widget := toggleSources i (widget m); page := page m |}, [])
  | Clear => withWidget m (ChatWidget.handleClear (widget m)) botId
  | Restart => withWidget m (ChatWidget.handleRestart (widget m)) botId
  | Settle o =>
      if Page.isLoading (page m)
      then ({| widget := widget m; page := TestBot.sendMessage_settle o (page m) |}, [])
      else (m, [])
  end.

(** A run of events: the final state and all requests sent, in order. *)
Definition run (botId : string) (es : list Event) (m : State) : State * list Http.request :=
  fold_left (fun acc e =>
               let '(m1, rs) := step botId (fst acc) e in (m1, snd acc ++ rs))
            es (m, []).

(** The menu buttons that the mounted widget shows. *)
Definition menu (m : State) : option (list ChatWidget.Button) :=
  match Page.bot (page m) with
  | Some b => ChatWidget.render (widget m) b (Page.messages (page m))
  | None => None
  end.

Definition isUserTurn (m : Message) : bool :=
  match role m with
  | user => true
  | assistant => false
  end.

(** Whether the history holds two user turns in a row. *)
Fixpoint userTurnsInARow (l : list Message) : bool :=
  match l with
  | a :: t =>
      match role a, t with
      | user, b :: _ =>
          match role b with
          | user => true
          | assistant => userTurnsInARow t
          end
      | _, _ => userTurnsInARow t
      end
  | [] => false
  end.

(** Whether the last turn of the history is a user turn. *)
Definition endsWithUserTurn (l : list Message) : bool :=
  match last l with
  | Some m => match role m with user => true | assistant => false end
  | None => false
  end.

(** The history is well formed when no two user turns are in a row and a
    user turn at its end is one whose request is in flight. *)
Definition wellFormed (st : Page.State) : Prop :=
  userTurnsInARow (Page.messages st) = false
  /\ (endsWithUserTurn (Page.messages st) = true -> Page.isLoading st = true).

End Mounted.

(** ** The sources of an answer *)

Module Sources.

(** [null] and [undefined], the values whose properties cannot be read. *)
Definition nullish (v : Js.value) : Prop := v = Js.Null \/ v = Js.Undefined.

(** What [normalizeSource] makes of a source: the source itself, or a new
    object that holds a [metadata] record with [url] and [title] and
    nothing else. *)
Definition keptOrRebuilt (src out : Js.value) : Prop :=
  out = src
  \/ exists u t,
       out = Js.Obj [("metadata", Js.Obj [("url", u); ("title", t)])]
       /\ Js.truthy t = true.

End Sources.

(** ** [EditBot]: menu options and documents *)

Module EditBotForm.
Import Chat.

(** [client.post(`/api/bots/${botId}/avatar`, formData, ...)] *)
Definition avatarRequest (botId : string) (file : Http.File) : Http.request :=
  Http.post ("/api/bots/" ++ botId ++ "/avatar")
    (Http.FormData [("file", file)]) Handler.multipart.

(** A back end that accepts, whenever they come, the upload of an avatar,
    the update of the bot [st] and the upload of a document; it may reject
    the submission of a URL. *)
Definition acceptsUpdate (net : Handler.network) (botId : string) (st : EditBot.State)
  : Prop :=
  (forall log file, exists d, net log (avatarRequest botId file) = Http.Resolved d)
  /\ (forall log avatarUrl,
        exists d, net log (EditBot.updateBot botId avatarUrl st) = Http.Resolved d)
  /\ (forall log file,
        exists d, net log (Handler.documentRequest botId file) = Http.Resolved d).

(** A back end that accepts every request. *)
Definition acceptsAll (net : Handler.network) : Prop :=
  forall (log : list Http.request) (r : Http.request),
    exists d, net log r = Http.Resolved d.

(** [setMenuOptions([...menuOptions, { option_name: "", prompt: "" }])] *)
Definition handleAddMenuOption (menuOptions : list MenuOption) : list MenuOption :=
  menuOptions ++ [{| option_name := ""; prompt := "" |}].

(** [newOptions.splice(index, 1)] on a copy of the list. *)
Definition handleRemoveMenuOption (index : nat) (menuOptions : list MenuOption)
  : list MenuOption :=
  delete index menuOptions.

(** [keyof MenuOption] *)
Inductive Field : Type := option_name_field | prompt_field.

Definition setField (field : Field) (value : string) (o : MenuOption) : MenuOption :=
  match field with
  | option_name_field => {| option_name := value; prompt := prompt o |}
  | prompt_field => {| option_name := option_name o; prompt := value |}
  end.

(** [newOptions[index][field] = value] on a copy of the list; [None] is
    the [TypeError] of an index that holds no option.  The options of the
    form are distinct objects, so that the write shows in one place. *)
Definition handleMenuOptionChange (index : nat) (field : Field) (value : string)
  (menuOptions : list MenuOption) : option (list MenuOption) :=
  match menuOptions !! index with
  | Some o => Some (<[index := setField field value o]> menuOptions)
  | None => None
  end.

(** A document of the bot, as [GET /api/bots/:id/documents] lists it. *)
Record Document : Type := {
  id : string;
  filename : string
}.

(** The cells of [EditBot] that [loadExistingDocuments] writes or keeps. *)
Record State : Type := {
  existingDocuments : list Document;
  urls : string;
  error : string;
  success : string
}.

(** A chunk of the bot, as [GET /api/bots/:id/chunks] lists it. *)
Record Chunk : Type := { source : option string }.

(** [s.substring(n)] *)
Fixpoint substringFrom (n : nat) (s : string) : string :=
  match n, s with
  | O, _ => s
  | S n', String _ s' => substringFrom n' s'
  | S _, EmptyString => EmptyString
  end.

(** [doc.filename.startsWith('URL: ')] *)
Definition isUrlDocument (doc : Document) : bool :=
  String.prefix "URL: " (filename doc).

(** [urlDocuments.map(doc => doc.filename.substring(5))] *)
Definition documentUrls (docs : list Document) : list string :=
  map (fun doc => substringFrom 5 (filename doc)) (List.filter isUrlDocument docs).

Definition lineBreak : string := String Str.newline EmptyString.

(** [... .join('\n')] *)
Definition extractedUrls (docs : list Document) : string :=
  String.concat lineBreak (documentUrls docs).

(** [[...new Set(xs)]]: the first occurrence of each string, in order. *)
Fixpoint unique (seen xs : list string) : list string :=
  match xs with
  | [] => []
  | x :: rest =>
      if existsb (String.eqb x) seen then unique seen rest
      else x :: unique (x :: seen) rest
  end.

(** [chunk.source && chunk.source.startsWith('URL: ')] *)
Definition isUrlChunk (chunk : Chunk) : bool :=
  truthy (source chunk) && String.prefix "URL: " (default "" (source chunk)).

Definition urlsFromChunks (chunks : list Chunk) : string :=
  String.concat lineBreak
    (unique [] (map (fun chunk => substringFrom 5 (default "" (source chunk)))
                  (List.filter isUrlChunk chunks))).

Definition documentsRequest (botId : string) : Http.request :=
  Http.get ("/api/bots/" ++ botId ++ "/documents").

Definition chunksRequest (botId : string) : Http.request :=
  Http.get ("/api/bots/" ++ botId ++ "/chunks").

Definition setUrls (u : string) (st : State) : State :=
  {| existingDocuments := existingDocuments st; urls := u;
     error := error st; success := success st |}.

(** [loadExistingDocuments]: [docs] is the outcome of the request for the
    documents, [chunks] that of the request for the chunks, which is sent
    only when the documents gave no URL; its [response.data] may be
    [null]. *)
Definition loadExistingDocuments (botId : string)
  (docs : Http.outcome (list Document))
  (chunks : Http.outcome (option (list Chunk))) (st : State)
  : State * list Http.request :=
  match docs with
  | Http.Rejected _ => (st, [documentsRequest botId])
  | Http.Resolved data =>
      let st1 :=
        {| existingDocuments := data; urls := urls st;
           error := error st; success := success st |} in
      if Str.truthy (Str.trim (extractedUrls data))
      then (setUrls (extractedUrls data) st1, [documentsRequest botId])
      else
        (match chunks with
         | Http.Resolved (Some cs) =>
             if (0 <? length cs)%nat
             then if (0 <? length (List.filter isUrlChunk cs))%nat
                  then if Str.truthy (Str.trim (urlsFromChunks cs))
                       then setUrls (urlsFromChunks cs) st1
                       else st1
                  else st1
             else st1
         | Http.Resolved None => st1
         | Http.Rejected _ => st1
         end,
         [documentsRequest botId; chunksRequest botId])
  end.

(** Whether a character occurs in a string. *)
Fixpoint occurs (c : ascii) (s : string) : bool :=
  match s with
  | EmptyString => false
  | String c' s' => Ascii.eqb c c' || occurs c s'
  end.

End EditBotForm.

(** ** Lines of text *)

Module Lines.

(** Whether a string is made of white space only. *)
Fixpoint allSpace (s : string) : bool :=
  match s with
  | EmptyString => true
  | String c s' => Str.is_space c && allSpace s'
  end.

(** [url => url.trim()] as a filter: the line is not blank. *)
Definition nonblank (s : string) : bool := Str.truthy (Str.trim s).

(** The entries of a list of lines: the lines that are not blank, each
    trimmed. *)
Definition entries (lines : list string) : list string :=
  map Str.trim (List.filter nonblank lines).

End Lines.

(** ** The browser, the API client and the session *)

Module Browser.

(** What the handlers use of the browser: [localStorage] and the route
    that [navigate] sets. *)
Record env : Type := {
  localStorage : gmap string string;
  location : string
}.

Definition getItem (k : string) (e : env) : option string := localStorage e !! k.

Definition setItem (k v : string) (e : env) : env :=
  {| localStorage := <[k := v]> (localStorage e); location := location e |}.

Definition removeItem (k : string) (e : env) : env :=
  {| localStorage := delete k (localStorage e); location := location e |}.

Definition navigate (path : string) (e : env) : env :=
  {| localStorage := localStorage e; location := path |}.

End Browser.

Module Client.

(** [headers[k]] *)
Fixpoint header (k : string) (hs : list (string * string)) : option string :=
  match hs with
  | [] => None
  | (k', v) :: rest => if String.eqb k k' then Some v else header k rest
  end.

(** [headers[k] = v]: the header is overwritten where it stands, or
    added at the end. *)
Fixpoint setHeader (k v : string) (hs : list (string * string)) : list (string * string) :=
  match hs with
  | [] => [(k, v)]
  | (k', v') :: rest =>
      if String.eqb k k' then (k, v) :: rest else (k', v') :: setHeader k v rest
  end.

(** The request interceptor of [src/api/client.ts]. *)
Definition interceptRequest (e : Browser.env) (config : Http.request) : Http.request :=
  match Browser.getItem "supabase_token" e with
  | Some token =>
      if Str.truthy token
      then {| Http.verb := Http.verb config; Http.url := Http.url config;
              Http.data := Http.data config;
              Http.headers :=
                setHeader "Authorization" ("Bearer " ++ token) (Http.headers config) |}
      else config
  | None => config
  end.

End Client.

Module Supabase.

Record User : Type := {
  email : option string;
  full_name : option string
}.

Record Session : Type := {
  access_token : string;
  user : User
}.

End Supabase.

Module UseAuth.

Record State : Type := {
  user : option Supabase.User;
  session : option Supabase.Session;
  loading : bool
}.

(** The body of [getSession] after its [await]. *)
Definition getSession_settle (s : option Supabase.Session) (st : State) (e : Browser.env)
  : State * Browser.env :=
  ({| user := option_map Supabase.user s; session := s; loading := false |},
   match s with
   | Some s' => Browser.setItem "supabase_token" (Supabase.access_token s') e
   | None => e
   end).

(** The listener given to [supabase.auth.onAuthStateChange]. *)
Definition onAuthStateChange (s : option Supabase.Session) (st : State) (e : Browser.env)
  : State * Browser.env :=
  ({| user := option_map Supabase.user s; session := s; loading := loading st |},
   match s with
   | Some s' => Browser.setItem "supabase_token" (Supabase.access_token s') e
   | None => Browser.removeItem "supabase_token" e
   end).

(** [handleLogout] of [Dashboard], [TestBot] and [EditBot]: [confirmed] is
    the answer to the confirmation dialog, [signedOut] tells whether
    [supabase.auth.signOut()] returned or threw. *)
Definition handleLogout (confirmed signedOut : bool) (e : Browser.env) : Browser.env :=
  if negb confirmed then e
  else if signedOut
       then Browser.navigate "/" (Browser.removeItem "supabase_token" e)
       else Browser.navigate "/" (Browser.removeItem "supabase_token" e).

End UseAuth.

(** ** [Login] *)

Module Login.

(** What [supabase.auth.signInWithPassword] does: it returns an error, or
    data with a session that may be [null], or it throws. *)
Inductive SignIn : Type :=
| SignInError (message : string)
| SignedIn (session : option Supabase.Session)
| SignInThrown.

Record State : Type := {
  email : string;
  password : string;
  loading : bool;
  error : string;
  showPassword : bool
}.

Definition withStatus (l : bool) (err : string) (st : State) : State :=
  {| email := email st; password := password st; loading := l; error := err;
     showPassword := showPassword st |}.

Definition handleLogin (o : SignIn) (st : State) (e : Browser.env) : State * Browser.env :=
  match o with
  | SignInError message => (withStatus false message st, e)
  | SignedIn session =>
      (withStatus false "" st,
       Browser.navigate "/dashboard"
         (match session with
          | Some s => Browser.setItem "supabase_token" (Supabase.access_token s) e
          | None => e
          end))
  | SignInThrown => (withStatus false "Login failed. Please try again." st, e)
  end.

End Login.

(** ** [useTheme] and [ThemeWidget] *)

Module Theme.

Record Background : Type := { background_from : string; background_via : string; background_to : string }.
Record Primary : Type := { primary_from : string; primary_to : string }.
Record Text : Type := { text_primary : string; text_secondary : string; text_muted : string }.
Record Surface : Type := { card : string; border : string; glass : string }.
Record Decorative : Type := { decorative_primary : string; decorative_secondary : string; decorative_tertiary : string }.

Record Colors : Type := {
  background : Background;
  primary : Primary;
  text : Text;
  surface : Surface;
  decorative : Decorative
}.

Record ThemeConfig : Type := { colors : Colors }.

(** [themeConfigs.default], the only entry of [themeConfigs]. *)
Definition defaultConfig : ThemeConfig :=
  {| colors :=
       {| background := {| background_from := "bg-gradient-to-br from-amber-50";
                           background_via := "via-orange-50";
                           background_to := "to-amber-100" |};
          primary := {| primary_from := "from-amber-600"; primary_to := "to-orange-600" |};
          text := {| text_primary := "text-gray-800"; text_secondary := "text-gray-600";
                     text_muted := "text-gray-500" |};
          surface := {| card := "bg-white/80"; border := "border-amber-200";
                        glass := "bg-white/60" |};
          decorative := {| decorative_primary := "bg-amber-200";
                           decorative_secondary := "bg-orange-200";
                           decorative_tertiary := "bg-yellow-200" |} |} |}.

(** The members that every object literal inherits from
    [Object.prototype]. *)
Definition objectPrototypeMembers : list string :=
  ["constructor"; "__proto__"; "hasOwnProperty"; "isPrototypeOf";
   "propertyIsEnumerable"; "toLocaleString"; "toString"; "valueOf";
   "__defineGetter__"; "__defineSetter__"; "__lookupGetter__"; "__lookupSetter__"].

(** What [themeConfigs[key]] finds. *)
Inductive Member : Type :=
| Own (config : ThemeConfig)
| Inherited
| Absent.

Definition themeConfigs (key : string) : Member :=
  if String.eqb key "default" then Own defaultConfig
  else if existsb (String.eqb key) objectPrototypeMembers then Inherited
  else Absent.

(** [themeConfigs[currentTheme] || themeConfigs.default]; [None] when the
    value found is an inherited member, which is truthy and is no theme. *)
Definition themeConfig (currentTheme : string) : option ThemeConfig :=
  match themeConfigs currentTheme with
  | Own config => Some config
  | Inherited => None
  | Absent => Some defaultConfig
  end.

(** The effect that [useTheme] runs when a component mounts:
    [setCurrentTheme(localStorage.getItem('theme') || 'default')]. *)
Definition mount (e : Browser.env) : string :=
  match Browser.getItem "theme" e with
  | Some saved => if Str.truthy saved then saved else "default"
  | None => "default"
  end.

(** [setTheme]: the new [currentTheme] and the browser after it. *)
Definition setTheme (theme : string) (e : Browser.env) : string * Browser.env :=
  (theme, Browser.setItem "theme" theme e).

(** The buttons of [ThemeWidget]. *)
Record Choice : Type := { id : string; name : string; color : string }.

Definition themes : list Choice :=
  [{| id := "default"; name := "Default"; color := "bg-blue-500" |};
   {| id := "dark"; name := "Dark"; color := "bg-gray-800" |};
   {| id := "purple"; name := "Purple"; color := "bg-purple-500" |};
   {| id := "green"; name := "Green"; color := "bg-green-500" |}].

End Theme.

(** ** [Signup]: the countdown after a successful sign-up *)

Module Signup.

Inductive SignUp : Type :=
| SignUpError (message : string)
| SignedUp
| SignUpThrown.

(** The cells that [handleSignup] and its timer write, and the route. *)
Record State : Type := {
  loading : bool;
  error : string;
  success : bool;
  countdown : Z;
  timer : bool;
  location : string
}.

Definition handleSignup (o : SignUp) (st : State) : State :=
  match o with
  | SignUpError message =>
      {| loading := false; error := message; success := success st;
         countdown := countdown st; timer := timer st; location := location st |}
  | SignedUp =>
      {| loading := false; error := ""; success := true;
         countdown := countdown st; timer := true; location := location st |}
  | SignUpThrown =>
      {| loading := false; error := "Signup failed. Please try again.";
         success := success st; countdown := countdown st; timer := timer st;
         location := location st |}
  end.

(** One firing of the interval: [setCountdown(prev => ...)]. *)
Definition tick (st : State) : State :=
  if timer st then
    if (countdown st <=? 1)%Z
    then {| loading := loading st; error := error st; success := success st;
            countdown := 0; timer := false; location := "/" |}
    else {| loading := loading st; error := error st; success := success st;
            countdown := (countdown st - 1)%Z; timer := timer st;
            location := location st |}
  else st.

(** The state after [n] seconds. *)
Definition after (n : nat) (st : State) : State := Nat.iter n tick st.

End Signup.

(** ** [Profile] *)

Module Profile.



Record State : Type := {
  loading : bool;
  company : string;
  email : string;
  password : string
}.





End Profile.

(** ** More sample data *)

Module Cases.

(** A back end that accepts every request. *)
Definition friendly : Handler.network :=
  fun _ _ => Http.Resolved {| Handler.id := "bot-7"; Handler.avatar := "/avatars/7.png" |}.

(** A back end that rejects every submission of a URL and accepts every
    other request. *)
Definition offline : Handler.network :=
  fun _ r =>
    match Http.data r with
    | Http.Json (Js.Obj [("url", _)]) => Http.Rejected {| Http.detail := None |}
    | _ => Http.Resolved {| Handler.id := "bot-7"; Handler.avatar := "/avatars/7.png" |}
    end.

End Cases.

Module Cases2.

Definition refunds_page : EditBotForm.Document :=
  {| EditBotForm.id := "d1"; EditBotForm.filename := "URL: https://shop.example/refunds" |}.

Definition manual : EditBotForm.Document :=
  {| EditBotForm.id := "d2"; EditBotForm.filename := "manual.pdf" |}.

Definition shipping_page : EditBotForm.Document :=
  {| EditBotForm.id := "d3"; EditBotForm.filename := "URL: https://shop.example/shipping" |}.

Definition blankForm : EditBotForm.State :=
  {| EditBotForm.existingDocuments := []; EditBotForm.urls := "";
     EditBotForm.error := ""; EditBotForm.success := "" |}.

(** The form of [EditBot] with the URL field as [loadExistingDocuments]
    fills it from the three documents above. *)
Definition reloaded : EditBot.State :=
  {| EditBot.botName := "Shop"; EditBot.botDescription := "Shop assistant";
     EditBot.greetingMessage := "Hi"; EditBot.botAvatar := "";
     EditBot.botAvatarFile := None; EditBot.menuOptions := [];
     EditBot.selectedFiles := None;
     EditBot.urls := EditBotForm.extractedUrls [refunds_page; manual; shipping_page];
     EditBot.isLoading := false; EditBot.error := ""; EditBot.success := "" |}.

End Cases2.

Module Cases3.

Definition alice : Supabase.Session :=
  {| Supabase.access_token := "tok-alice";
     Supabase.user := {| Supabase.email := Some "alice@shop.example";
                         Supabase.full_name := Some "Shop" |} |}.

(** A browser that holds the token of an earlier session and a theme. *)
Definition returning : Browser.env :=
  {| Browser.localStorage := {[ "supabase_token" := "tok-old"; "theme" := "dark" ]};
     Browser.location := "/dashboard" |}.

Definition signedOut : UseAuth.State :=
  {| UseAuth.user := None; UseAuth.session := None; UseAuth.loading := false |}.

Definition loginForm : Login.State :=
  {| Login.email := "alice@shop.example"; Login.password := "secret";
     Login.loading := true; Login.error := ""; Login.showPassword := false |}.

Definition signupForm : Signup.State :=
  {| Signup.loading := true; Signup.error := ""; Signup.success := false;
     Signup.countdown := 5; Signup.timer := false; Signup.location := "/signup" |}.



End Cases3.

(** * Properties *)

Import Chat.

(** ** Strings and state cells *)

Lemma truthy_false_iff (s : string) : Str.truthy s = false <-> s = "".
Proof. destruct s; simpl; split; congruence. Qed.

Lemma truthy_true_iff (s : string) : Str.truthy s = true <-> s <> "".
Proof. destruct s; simpl; split; congruence. Qed.

Lemma effective_content_given (m : string) (st : Page.State) :
  m <> "" -> Page.effective_content (Some m) st = m.
Proof.
  intros Hm. unfold Page.effective_content. simpl.
  apply truthy_true_iff in Hm. now rewrite Hm.
Qed.

Lemma trim_nonblank_nonempty (s : string) : Str.trim s <> "" -> s <> "".
Proof. intros H ->. now apply H. Qed.

(** ** [sendMessage] *)

Section SendMessageFacts.

Variable botId : string.
Variable assistantMessage : Response.data -> option Message.

Let begin_ := Page.sendMessage_begin botId.
Let settle_ := Page.sendMessage_settle assistantMessage.
Let send_ := Page.sendMessage botId assistantMessage.

Lemma begin_rejected (mc : option string) (st : Page.State) :
  Str.trim (Page.effective_content mc st) = "" \/ Page.isLoading st = true ->
  begin_ mc st = (st, None).
Proof.
  intros H. unfold begin_, Page.sendMessage_begin.
  destruct H as [H | H].
  - rewrite H. reflexivity.
  - rewrite H. now rewrite orb_true_r.
Qed.

Lemma begin_accepted (mc : option string) (st : Page.State) :
  Str.trim (Page.effective_content mc st) <> "" ->
  Page.isLoading st = false ->
  exists st1,
    begin_ mc st = (st1, Some (Page.chatRequest botId (Page.effective_content mc st)))
    /\ Page.messages st1
       = Page.messages st ++ [Page.userMessage (Page.effective_content mc st)]
    /\ Page.isLoading st1 = true
    /\ Page.bot st1 = Page.bot st.
Proof.
  intros Hc Hl. unfold begin_, Page.sendMessage_begin.
  apply truthy_true_iff in Hc. rewrite Hc, Hl. simpl.
  eexists. split; [reflexivity |].
  destruct (negb (truthy mc)); simpl; auto.
Qed.


Lemma settle_messages (o : Http.outcome Response.data) (st : Page.State) :
  Page.messages (settle_ o st)
  = Page.messages st ++ [Page.answer assistantMessage o].
Proof.
  unfold settle_, Page.sendMessage_settle, Page.answer.
  destruct o as [e | d]; simpl; [reflexivity |].
  destruct (assistantMessage d); reflexivity.
Qed.

Lemma settle_isLoading (o : Http.outcome Response.data) (st : Page.State) :
  Page.isLoading (settle_ o st) = false.
Proof. reflexivity. Qed.

Lemma send_accepted (mc : option string) (o : Http.outcome Response.data)
  (st : Page.State) :
  Str.trim (Page.effective_content mc st) <> "" ->
  Page.isLoading st = false ->
  Page.messages (send_ mc o st)
  = Page.messages st
    ++ [Page.userMessage (Page.effective_content mc st);
        Page.answer assistantMessage o]
  /\ Page.isLoading (send_ mc o st) = false.
Proof.
  intros Hc Hl.
  destruct (begin_accepted mc st Hc Hl) as (st1 & Hb & Hm & _).
  unfold send_, Page.sendMessage. fold begin_. rewrite Hb.
  fold settle_. rewrite settle_messages, Hm, <- app_assoc. simpl.
  split; reflexivity.
Qed.

Lemma send_rejected (mc : option string) (o : Http.outcome Response.data)
  (st : Page.State) :
  Str.trim (Page.effective_content mc st) = "" \/ Page.isLoading st = true ->
  send_ mc o st = st.
Proof.
  intros H. unfold send_, Page.sendMessage. fold begin_.
  now rewrite (begin_rejected mc st H).
Qed.



End SendMessageFacts.

(** The page that renders [ChatWidget] never fills its own input field, so
    [inputMessage] stays empty there and the message that the guard tests
    is the argument itself: a blank argument is then blank as a whole. *)
Lemma blank_argument_blank_content (mc : option string) (st : Page.State) :
  Page.inputMessage st = "" ->
  Str.trim (default "" mc) = "" ->
  Str.trim (Page.effective_content mc st) = "".
Proof.
  intros Hi Hb. unfold Page.effective_content.
  destruct (truthy mc); [exact Hb | now rewrite Hi].
Qed.

(** ** The chat turn *)

(** C2: when the chat request of a turn fails, be it an error or a
    timeout, the turn still ends: the history grows by the user turn and
    an assistant turn that holds the apology, nothing is raised, and the
    page takes the next message.  This holds for the page that renders
    [ChatWidget] and for the page with the legal panel. *)
Theorem failed_request_gets_apology (botId : string) (mc : option string)
  (e : Http.error) (st : Page.State) :
  Str.trim (Page.effective_content mc st) <> "" ->
  Page.isLoading st = false ->
  (Page.messages (TestBot.sendMessage botId mc (Http.Rejected e) st)
   = Page.messages st
     ++ [Page.userMessage (Page.effective_content mc st); Page.errorMessage]
   /\ Page.messages (TestBotLegal.sendMessage botId mc (Http.Rejected e) st)
      = Page.messages st
        ++ [Page.userMessage (Page.effective_content mc st); Page.errorMessage])
  /\ (role Page.errorMessage = assistant
      /\ content Page.errorMessage = "Sorry, I encountered an error. Please try again.")
  /\ (Page.isLoading (TestBot.sendMessage botId mc (Http.Rejected e) st) = false
      /\ Page.isLoading (TestBotLegal.sendMessage botId mc (Http.Rejected e) st) = false)
  /\ (forall next : string,
        Str.trim next <> "" ->
        snd (TestBot.sendMessage_begin botId (Some next)
               (TestBot.sendMessage botId mc (Http.Rejected e) st))
        = Some (Page.chatRequest botId next)).
Proof.
  intros Hc Hl.
  destruct (send_accepted botId TestBot.assistantMessage mc (Http.Rejected e) st Hc Hl)
    as [Hm1 Hl1].
  destruct (send_accepted botId TestBotLegal.assistantMessage mc (Http.Rejected e) st Hc Hl)
    as [Hm2 Hl2].
  repeat split; try assumption.
  intros next Hn.
  set (st' := TestBot.sendMessage botId mc (Http.Rejected e) st).
  assert (He : Page.effective_content (Some next) st' = next)
    by (apply effective_content_given; now apply trim_nonblank_nonempty).
  destruct (begin_accepted botId (Some next) st') as (st1 & Hb & _);
    [now rewrite He | exact Hl1 |].
  unfold TestBot.sendMessage_begin. now rewrite Hb, He.
Qed.

Lemma failed_request_gets_apology_witness :
  Page.messages (TestBot.sendMessage "bot-7" (Some "Hello") (Http.Rejected Sample.timeout)
                   Sample.greeted)
  = [Page.greeting "Hi, how can I help?"; Page.userMessage "Hello"; Page.errorMessage].
Proof.
  refine (proj1 (proj1 (failed_request_gets_apology "bot-7" (Some "Hello")
                          Sample.timeout Sample.greeted _ _))).
  - vm_compute. discriminate.
  - reflexivity.
Defined.



(** C8: a call of [sendMessage] whose message is empty or only white
    space, or that is made while a request is in flight, issues no request
    and leaves the page as it was, history and input field included. *)
Theorem blank_or_busy_send_is_ignored (botId : string) (mc : option string)
  (st : Page.State) :
  Str.trim (Page.effective_content mc st) = "" \/ Page.isLoading st = true ->
  TestBot.sendMessage_begin botId mc st = (st, None)
  /\ (forall o : Http.outcome Response.data, TestBot.sendMessage botId mc o st = st).
Proof.
  intros H. split.
  - now apply begin_rejected.
  - intros o. now apply send_rejected.
Qed.

Lemma blank_or_busy_send_is_ignored_witness :
  TestBot.sendMessage_begin "bot-7" (Some "   ") Sample.greeted = (Sample.greeted, None)
  /\ TestBot.sendMessage_begin "bot-7" (Some "Hello again") Sample.waiting
     = (Sample.waiting, None).
Proof.
  split.
  - refine (proj1 (blank_or_busy_send_is_ignored "bot-7" (Some "   ") Sample.greeted _)).
    left. reflexivity.
  - refine (proj1 (blank_or_busy_send_is_ignored "bot-7" (Some "Hello again")
                     Sample.waiting _)).
    right. reflexivity.
Defined.

(** C9: after [restartChat] the history is the greeting of the bot, as a
    single assistant turn, when the bot has a greeting, and is empty when
    it has none; the input field and the source panels are reset either
    way. *)
Theorem restartChat_shows_greeting (st : Page.State) :
  (forall (b : Bot) (g : string),
     Page.bot st = Some b -> greeting_message b = Some g -> g <> "" ->
     Page.messages (TestBot.restartChat st)
     = [{| role := assistant; content := g;
           legal_response := Js.Undefined; sources := None |}])
  /\ (Page.bot st = None
      \/ (exists b, Page.bot st = Some b
                    /\ (greeting_message b = None \/ greeting_message b = Some "")) ->
      Page.messages (TestBot.restartChat st) = [])
  /\ Page.inputMessage (TestBot.restartChat st) = ""
  /\ Page.showSources (TestBot.restartChat st) = ∅.
Proof.
  unfold TestBot.restartChat. repeat split.
  - intros b g Hb Hg Hne. rewrite Hb, Hg. simpl.
    apply truthy_true_iff in Hne. now rewrite Hne.
  - intros [Hb | (b & Hb & [Hg | Hg])]; rewrite Hb; [reflexivity | |];
      now rewrite Hg.
  - destruct (Page.bot st) as [b |]; [| reflexivity].
    now destruct (truthy (greeting_message b)).
  - destruct (Page.bot st) as [b |]; [| reflexivity].
    now destruct (truthy (greeting_message b)).
Qed.

Lemma restartChat_shows_greeting_witness :
  Page.messages (TestBot.restartChat Sample.talking)
  = [{| role := assistant; content := "Hi, how can I help?";
        legal_response := Js.Undefined; sources := None |}]
  /\ Page.messages (TestBot.restartChat Sample.waiting) = [].
Proof.
  split.
  - refine (proj1 (restartChat_shows_greeting Sample.talking) Sample.helper _ _ _ _).
    + reflexivity.
    + reflexivity.
    + discriminate.
  - refine (proj1 (proj2 (restartChat_shows_greeting Sample.waiting)) _).
    right. exists Sample.silent. split; [reflexivity | left; reflexivity].
Defined.

(** ** Cited sources *)

Lemma truthy_defined (v : Js.value) : Js.truthy v = true -> TestBot.defined v = true.
Proof. now destruct v. Qed.

Lemma or_defined (a b : Js.value) :
  TestBot.defined b = true -> TestBot.defined (Js.or a b) = true.
Proof.
  intros Hb. unfold Js.or. destruct (Js.truthy a) eqn:Ha; [| exact Hb].
  now apply truthy_defined.
Qed.

Lemma or_truthy (a b : Js.value) :
  Js.truthy b = true -> Js.truthy (Js.or a b) = true.
Proof. intros Hb. unfold Js.or. now destruct (Js.truthy a) eqn:Ha. Qed.

Lemma kept_source_is_complete (src metadata : Js.value) :
  Js.get src "metadata" = Some metadata ->
  (if Js.truthy metadata then
     u ← Js.get metadata "url";
     if Js.truthy u then t ← Js.get metadata "title"; Some (Js.truthy t)
     else Some false
   else Some false) = Some true ->
  TestBot.hasUrlAndTitle src = true.
Proof.
  intros Hm Hk. unfold TestBot.hasUrlAndTitle. rewrite Hm.
  destruct metadata as [| | b | n | s | xs | fields | f]; simpl in Hk;
    try discriminate.
  - now destruct b.
  - now destruct (negb (n =? 0)%Z).
  - now destruct (Str.truthy s).
  - destruct (Js.truthy (Js.lookup "url" fields)) eqn:Hu; [| discriminate].
    simpl in Hk. injection Hk as Ht.
    rewrite Ht, (truthy_defined _ Hu). reflexivity.
Qed.

Lemma normalizeSource_complete (src out : Js.value) :
  TestBot.normalizeSource src = Some out -> TestBot.hasUrlAndTitle out = true.
Proof.
  unfold TestBot.normalizeSource. intros H.
  apply bind_Some in H as (metadata & Hm & H).
  apply bind_Some in H as (keep & Hk & H).
  destruct keep.
  - injection H as <-. now apply (kept_source_is_complete src metadata).
  - repeat (apply bind_Some in H as (? & _ & H)).
    injection H as <-.
    unfold TestBot.hasUrlAndTitle. cbn.
    rewrite or_defined by reflexivity. now rewrite or_truthy.
Qed.

Lemma normalizeSources_complete (raw : option (list Js.value)) (srcs : list Js.value) :
  TestBot.normalizeSources raw = Some srcs ->
  Forall (fun src => TestBot.hasUrlAndTitle src = true) srcs.
Proof.
  unfold TestBot.normalizeSources. intros H.
  destruct (0 <? length (default [] raw))%nat eqn:Hlen.
  - apply mapM_Some in H. clear Hlen.
    induction H as [| x y xs ys Hxy _ IH]; constructor.
    + now apply (normalizeSource_complete x).
    + exact IH.
  - injection H as <-. apply Nat.ltb_ge in Hlen.
    destruct (default [] raw); [constructor | simpl in Hlen; lia].
Qed.

Lemma assistantMessage_complete (d : Response.data) (m : Message) :
  TestBot.assistantMessage d = Some m ->
  role m = assistant
  /\ content m = Response.message d
  /\ exists srcs, sources m = Some srcs
                  /\ Forall (fun src => TestBot.hasUrlAndTitle src = true) srcs.
Proof.
  unfold TestBot.assistantMessage. intros H.
  apply bind_Some in H as (srcs & Hs & H). injection H as <-. simpl.
  repeat split. exists srcs. split; [reflexivity |].
  now apply (normalizeSources_complete (Response.sources d)).
Qed.



(** ** Menu options *)

(** C3: a click on a menu option makes its hidden prompt the message of
    the turn: the prompt is what the chat request carries, and the prompt,
    not the label of the option, is what the user turn of the history
    holds. *)
Theorem menu_click_sends_and_shows_prompt (botId : string) (option : MenuOption)
  (w : ChatWidget.State) (st : Page.State) :
  Str.trim (prompt option) <> "" ->
  Page.isLoading st = false ->
  exists st1,
    ChatWidget.clickMenuOption botId option w st
    = (w, st1, [Page.chatRequest botId (prompt option)])
    /\ Page.messages st1 = Page.messages st ++ [Page.userMessage (prompt option)].
Proof.
  intros Hp Hl.
  assert (He : Page.effective_content (Some (prompt option)) st = prompt option)
    by (apply effective_content_given; now apply trim_nonblank_nonempty).
  destruct (begin_accepted botId (Some (prompt option)) st) as (st1 & Hb & Hm & _);
    [now rewrite He | exact Hl |].
  exists st1. rewrite He in Hb, Hm. split; [| exact Hm].
  unfold ChatWidget.clickMenuOption, ChatWidget.handleMenuOptionClick,
    ChatWidget.dispatch, TestBot.sendMessage_begin.
  simpl. now rewrite Hb.
Qed.

Lemma menu_click_sends_and_shows_prompt_witness :
  (exists st1,
     ChatWidget.clickMenuOption "bot-7" Sample.pricing Sample.opened Sample.greeted
     = (Sample.opened, st1,
        [Page.chatRequest "bot-7" "Explain every pricing plan and its limits in detail."])
     /\ Page.messages st1
        = [Page.greeting "Hi, how can I help?";
           Page.userMessage "Explain every pricing plan and its limits in detail."])
  /\ Page.userMessage "Explain every pricing plan and its limits in detail."
     <> Page.userMessage (option_name Sample.pricing).
Proof.
  split.
  - refine (menu_click_sends_and_shows_prompt "bot-7" Sample.pricing Sample.opened
              Sample.greeted _ _).
    + vm_compute. discriminate.
    + reflexivity.
  - discriminate.
Defined.

Lemma renderMenuOptions_Some (bot : Bot) (messages : list Message) (buttons : list ChatWidget.Button) :
  ChatWidget.renderMenuOptions bot messages = Some buttons <->
  exists m options,
    messages = [m] /\ role m = assistant /\ menu_options bot = Some options
    /\ buttons = map (fun o => {| ChatWidget.label := option_name o;
                                  ChatWidget.onClick := o |}) options.
Proof.
  unfold ChatWidget.renderMenuOptions.
  destruct messages as [| m [| m' rest]]; simpl.
  - split; [discriminate | intros (? & ? & ? & _); discriminate].
  - destruct (role m) eqn:Hr.
    + split; [discriminate |].
      intros (m0 & options & Hm & Hr0 & _). injection Hm as <-. congruence.
    + destruct (menu_options bot) as [options |].
      * split.
        -- intros H. injection H as <-. now exists m, options.
        -- intros (m0 & options0 & _ & _ & Ho & ->). now injection Ho as <-.
      * split; [discriminate | intros (? & ? & _ & _ & ? & _); discriminate].
  - split; [discriminate | intros (? & ? & ? & _); discriminate].
Qed.

(** C10, as the spec has it, fails where the widget is closed: the
    history is the greeting alone and the bot has menu options, yet no
    button is rendered. *)
Lemma closed_widget_renders_no_menu :
  ~ (forall (w : ChatWidget.State) (bot : Bot) (messages : list Message),
       is_Some (ChatWidget.render w bot messages) <->
       length messages = 1%nat
       /\ (exists m, messages !! 0%nat = Some m /\ role m = assistant)
       /\ is_Some (menu_options bot)).
Proof.
  intros H.
  destruct (proj2 (H Sample.closed Sample.helper (Page.messages Sample.greeted)))
    as [buttons Hb].
  - split; [reflexivity |]. split.
    + now exists (Page.greeting "Hi, how can I help?").
    + now exists [Sample.pricing].
  - discriminate Hb.
Qed.

(** C10, amended: [ChatWidget] renders the menu buttons if and only if
    its panel is open, the history holds exactly one message, that message
    is an assistant turn, and the bot defines [menu_options]; it renders
    one button per option, in order, labelled with the [option_name] of
    the option that its click selects. *)
Theorem menu_rendered_iff_open_on_greeting (w : ChatWidget.State) (bot : Bot)
  (messages : list Message) :
  (is_Some (ChatWidget.render w bot messages) <->
   ChatWidget.isOpen w = true
   /\ length messages = 1%nat
   /\ (exists m, messages !! 0%nat = Some m /\ role m = assistant)
   /\ is_Some (menu_options bot))
  /\ (forall buttons : list ChatWidget.Button,
        ChatWidget.render w bot messages = Some buttons ->
        exists options,
          menu_options bot = Some options
          /\ map ChatWidget.onClick buttons = options
          /\ map ChatWidget.label buttons = map option_name options).
Proof.
  unfold ChatWidget.render. split; [split |].
  - intros [buttons Hb]. destruct (ChatWidget.isOpen w); [| discriminate].
    apply renderMenuOptions_Some in Hb as (m & options & -> & Hr & Ho & _).
    repeat split; eauto.
  - intros (Hopen & Hlen & (m & Hm & Hr) & [options Ho]). rewrite Hopen.
    destruct messages as [| m0 [| m1 rest]]; try discriminate.
    simpl in Hm. injection Hm as ->.
    eexists. apply renderMenuOptions_Some. now exists m, options.
  - intros buttons Hb. destruct (ChatWidget.isOpen w); [| discriminate].
    apply renderMenuOptions_Some in Hb as (m & options & _ & _ & Ho & ->).
    exists options. split; [exact Ho |].
    rewrite !map_map. simpl. split; [apply map_id | reflexivity].
Qed.

(** ** The chat request *)

(** C6, as the spec has it, fails: the history cannot be read off the
    request, as two pages with different histories send the same request
    for the same message. *)
Lemma chat_request_omits_history :
  ~ (exists history_of : Http.request -> list Message,
       forall (mc : option string) (st st1 : Page.State) (r : Http.request),
         TestBot.sendMessage_begin "bot-7" mc st = (st1, Some r) ->
         history_of r = Page.messages st).
Proof.
  intros [history_of H].
  pose proof (H (Some "Hello") Sample.greeted _ _ eq_refl) as H1.
  pose proof (H (Some "Hello") Sample.talking _ _ eq_refl) as H2.
  assert (E : Page.messages Sample.greeted = Page.messages Sample.talking)
    by exact (eq_trans (eq_sym H1) H2).
  discriminate E.
Qed.

(** C6, amended: every chat request that [sendMessage] issues is a POST
    to the chat route of the bot id, and its body is the message of the
    turn under the key [content], and nothing else. *)
Theorem chat_request_has_bot_and_message (botId : string) (mc : option string)
  (st st1 : Page.State) (r : Http.request) :
  TestBot.sendMessage_begin botId mc st = (st1, Some r) ->
  Http.verb r = Http.POST
  /\ Http.url r = String.append "/api/chat/" botId
  /\ Http.data r
     = Http.Json (Js.Obj [("content", Js.Str (Page.effective_content mc st))]).
Proof.
  unfold TestBot.sendMessage_begin, Page.sendMessage_begin.
  destruct (negb (Str.truthy (Str.trim (Page.effective_content mc st)))
            || Page.isLoading st); [discriminate |].
  intros H. injection H as _ <-. repeat split.
Qed.

Lemma chat_request_has_bot_and_message_witness :
  Http.verb (Page.chatRequest "bot-7" "Hello") = Http.POST
  /\ Http.url (Page.chatRequest "bot-7" "Hello") = "/api/chat/bot-7"
  /\ Http.data (Page.chatRequest "bot-7" "Hello")
     = Http.Json (Js.Obj [("content", Js.Str "Hello")]).
Proof.
  refine (chat_request_has_bot_and_message "bot-7" (Some "Hello") Sample.talking
            (fst (TestBot.sendMessage_begin "bot-7" (Some "Hello") Sample.talking))
            (Page.chatRequest "bot-7" "Hello") _).
  reflexivity.
Defined.

(** ** Ingestion batches *)

(** C4: the code at a batch whose first upload fails.  [handleBuildBot]
    stops at the rejected upload: the files after it and the URLs are
    never sent, and the one error of the rejected upload is all that the
    page reports. *)
Theorem failed_upload_aborts_build (net : Handler.network) (st : Dashboard.State)
  (created : Handler.reply) (file : Http.File) (rest : list Http.File)
  (e : Http.error) :
  Str.trim (Dashboard.botName st) <> "" ->
  Dashboard.selectedFiles st = Some (file :: rest) ->
  net [] (Dashboard.createBot st) = Http.Resolved created ->
  net [Dashboard.createBot st] (Handler.documentRequest (Handler.id created) file)
  = Http.Rejected e ->
  snd (Dashboard.handleBuildBot net st)
  = [Dashboard.createBot st; Handler.documentRequest (Handler.id created) file]
  /\ Dashboard.success (fst (Dashboard.handleBuildBot net st)) = ""
  /\ Dashboard.error (fst (Dashboard.handleBuildBot net st))
     = (if truthy (Http.detail e) then default "" (Http.detail e)
        else "Failed to create bot. Please try again.").
Proof.
  intros Hname Hfiles Hcreate Hupload.
  apply truthy_true_iff in Hname.
  assert (Hrun : Dashboard.buildBot net st []
                 = ([Dashboard.createBot st;
                     Handler.documentRequest (Handler.id created) file],
                    Http.Rejected e)).
  { unfold Dashboard.buildBot, Handler.bind at 1, Handler.await at 1.
    rewrite Hcreate. simpl.
    unfold Handler.bind at 1. rewrite Hfiles. simpl.
    unfold Handler.bind at 1, Handler.uploadDocument at 1,
      Handler.bind at 1, Handler.await at 1.
    simpl. now rewrite Hupload. }
  unfold Dashboard.handleBuildBot. rewrite Hname. simpl.
  rewrite Hrun. repeat split.
Qed.

Lemma failed_upload_aborts_build_witness :
  snd (Dashboard.handleBuildBot Sample.flaky Sample.two_files)
  = [Dashboard.createBot Sample.two_files; Handler.documentRequest "bot-7" Sample.a_pdf]
  /\ Dashboard.success (fst (Dashboard.handleBuildBot Sample.flaky Sample.two_files)) = ""
  /\ Dashboard.error (fst (Dashboard.handleBuildBot Sample.flaky Sample.two_files))
     = "Unsupported file type".
Proof.
  refine (failed_upload_aborts_build Sample.flaky Sample.two_files
            {| Handler.id := "bot-7"; Handler.avatar := "" |}
            Sample.a_pdf [Sample.b_pdf]
            {| Http.detail := Some "Unsupported file type" |} _ _ _ _).
  - vm_compute. discriminate.
  - reflexivity.
  - reflexivity.
  - reflexivity.
Defined.

(** [handleUpdateBot] stops at a rejected upload in the same way. *)
Example update_stops_at_failed_upload :
  snd (EditBot.handleUpdateBot Sample.flaky "bot-7" Sample.edit_two_files)
  = [EditBot.updateBot "bot-7" "" Sample.edit_two_files;
     Handler.documentRequest "bot-7" Sample.a_pdf].
Proof. reflexivity. Qed.

(** The URL loop of [handleUpdateBot] is the one that goes on after a
    failure: the second page is submitted although the first was
    rejected, and the update ends in success. *)
Example update_goes_on_after_failed_url :
  snd (EditBot.handleUpdateBot Sample.flaky "bot-7" Sample.two_urls)
  = [EditBot.updateBot "bot-7" "" Sample.two_urls;
     Handler.urlRequest "bot-7" "https://down.example";
     Handler.urlRequest "bot-7" "https://up.example";
     Http.get "/api/bots/bot-7"]
  /\ EditBot.error (fst (EditBot.handleUpdateBot Sample.flaky "bot-7" Sample.two_urls)) = "".
Proof. split; reflexivity. Qed.

(** ** Tenant isolation of the vector store *)

Section Isolation.

Variable similarity : VectorStore.vector -> VectorStore.vector -> Q.

Lemma search_in_scope (s : VectorStore.Store) (b : string) (q : VectorStore.vector)
  (k : nat) (c : VectorStore.Chunk) (score : Q) :
  (c, score) ∈ VectorStore.search similarity b q k s ->
  VectorStore.bot_id c = b /\ c ∈ VectorStore.rows s
  /\ score = similarity q (VectorStore.embedding c).
Proof.
  unfold VectorStore.search. intros H.
  apply list_elem_of_fmap in H as (c' & Heq & Hin). injection Heq as -> ->.
  apply subseteq_take in Hin.
  rewrite merge_sort_Permutation in Hin.
  apply list_elem_of_filter in Hin as [Hb Hin]. auto.
Qed.

Lemma search_bounded (s : VectorStore.Store) (b : string) (q : VectorStore.vector)
  (k : nat) :
  length (VectorStore.search similarity b q k s) <= k.
Proof.
  unfold VectorStore.search. rewrite length_fmap, length_take. lia.
Qed.

Lemma documents_spec (s : VectorStore.Store) (b d : string) :
  d ∈ VectorStore.documents b s <->
  exists c, c ∈ VectorStore.rows s /\ VectorStore.bot_id c = b
            /\ VectorStore.document_id (VectorStore.metadata c) = d.
Proof.
  unfold VectorStore.documents. rewrite elem_of_list_to_set, list_elem_of_fmap.
  split.
  - intros (c & -> & Hin). apply list_elem_of_filter in Hin as [Hb Hin]. eauto.
  - intros (c & Hin & Hb & <-). exists c. split; [reflexivity |].
    apply list_elem_of_filter. auto.
Qed.

End Isolation.

(** C1: in every state that the operations of the store can reach, for
    two different bots A and B whose document sets are disjoint, a search
    scoped to A returns only chunks owned by A: none is owned by B, and
    none comes from a document of B, whatever the query vector, the bound
    and the similarity metric. *)
Theorem search_never_leaks_across_bots
  (similarity : VectorStore.vector -> VectorStore.vector -> Q)
  (s : VectorStore.Store) (A B : string) (q : VectorStore.vector) (k : nat)
  (c : VectorStore.Chunk) (score : Q) :
  VectorStore.reachable s ->
  A <> B ->
  VectorStore.documents A s ## VectorStore.documents B s ->
  (c, score) ∈ VectorStore.search similarity A q k s ->
  VectorStore.bot_id c = A
  /\ VectorStore.bot_id c <> B
  /\ VectorStore.document_id (VectorStore.metadata c) ∉ VectorStore.documents B s.
Proof.
  intros _ Hne Hdisj Hin.
  apply search_in_scope in Hin as (Hb & Hrow & _).
  split; [exact Hb |]. split; [congruence |].
  intros HB. apply (Hdisj (VectorStore.document_id (VectorStore.metadata c))).
  - apply documents_spec. eauto.
  - exact HB.
Qed.

Lemma search_never_leaks_across_bots_witness :
  VectorStore.bot_id Sample.refund_chunk = "bot-7"
  /\ VectorStore.bot_id Sample.refund_chunk <> "bot-9"
  /\ "refunds.pdf" ∉ VectorStore.documents "bot-9" Sample.two_tenants.
Proof.
  refine (search_never_leaks_across_bots VectorStore.dot Sample.two_tenants
            "bot-7" "bot-9" [1; 0]%Q 3 Sample.refund_chunk
            (VectorStore.dot [1; 0]%Q [1; 0]%Q) _ _ _ _).
  - apply VectorStore.reach_delete. do 3 apply VectorStore.reach_upsert.
    apply VectorStore.reach_empty.
  - discriminate.
  - apply (bool_decide_unpack _). vm_compute. exact I.
  - vm_compute. left.
Defined.

(** * Further properties of the code *)

(** ** The mounted widget *)

Lemma deliver_onSend (botId message : string) (st : Page.State) :
  Mounted.deliver botId [ChatWidget.onSend message] st
  = (fst (TestBot.sendMessage_begin botId (Some message) st),
     match snd (TestBot.sendMessage_begin botId (Some message) st) with
     | Some r => [r]
     | None => []
     end).
Proof.
  unfold Mounted.deliver. simpl.
  now destruct (TestBot.sendMessage_begin botId (Some message) st) as [s [r |]].
Qed.

Lemma step_Submit_nonblank (botId : string) (m : Mounted.State) :
  Str.trim (ChatWidget.inputValue (Mounted.widget m)) <> "" ->
  Mounted.step botId m Mounted.Submit
  = ({| Mounted.widget := Mounted.setInputValue "" (Mounted.widget m);
        Mounted.page :=
          fst (TestBot.sendMessage_begin botId
                 (Some (ChatWidget.inputValue (Mounted.widget m))) (Mounted.page m)) |},
     match snd (TestBot.sendMessage_begin botId
                  (Some (ChatWidget.inputValue (Mounted.widget m))) (Mounted.page m)) with
     | Some r => [r]
     | None => []
     end).
Proof.
  intros Hn. apply truthy_true_iff in Hn.
  unfold Mounted.step, Mounted.withWidget, ChatWidget.handleSendMessage.
  rewrite Hn. cbn [fst snd]. now rewrite deliver_onSend.
Qed.

Lemma run_from (botId : string) (es : list Mounted.Event) (m : Mounted.State)
  (sent : list Http.request) :
  fold_left (fun acc e =>
               let '(m1, rs) := Mounted.step botId (fst acc) e in (m1, snd acc ++ rs))
            es (m, sent)
  = (fst (Mounted.run botId es m), sent ++ snd (Mounted.run botId es m)).
Proof.
  unfold Mounted.run. revert m sent.
  induction es as [| e es IH]; intros m sent; simpl.
  - now rewrite app_nil_r.
  - destruct (Mounted.step botId m e) as [m1 rs]. simpl.
    rewrite (IH m1 (sent ++ rs)), (IH m1 rs). simpl. now rewrite <- app_assoc.
Qed.

Lemma run_cons (botId : string) (e : Mounted.Event) (es : list Mounted.Event)
  (m : Mounted.State) :
  Mounted.run botId (e :: es) m
  = (fst (Mounted.run botId es (fst (Mounted.step botId m e))),
     snd (Mounted.step botId m e)
     ++ snd (Mounted.run botId es (fst (Mounted.step botId m e)))).
Proof.
  unfold Mounted.run at 1. simpl.
  destruct (Mounted.step botId m e) as [m1 rs]. simpl. apply run_from.
Qed.

Lemma run_nil (botId : string) (m : Mounted.State) : Mounted.run botId [] m = (m, []).
Proof. reflexivity. Qed.

(** X1: a message typed into the widget and submitted while no request is
    in flight is taken as typed, white space at its ends included: it is
    the user turn appended to the history and the content of the one
    request sent, and the field of the widget is emptied. *)
Theorem typed_message_is_sent_as_typed (botId text : string) (m : Mounted.State) :
  Str.trim text <> "" ->
  Page.isLoading (Mounted.page m) = false ->
  snd (Mounted.run botId [Mounted.Type_ text; Mounted.Submit] m)
  = [Page.chatRequest botId text]
  /\ Page.messages (Mounted.page (fst (Mounted.run botId [Mounted.Type_ text; Mounted.Submit] m)))
     = Page.messages (Mounted.page m) ++ [Page.userMessage text]
  /\ ChatWidget.inputValue
       (Mounted.widget (fst (Mounted.run botId [Mounted.Type_ text; Mounted.Submit] m)))
     = "".
Proof.
  intros Hn Hl.
  assert (He : Page.effective_content (Some text) (Mounted.page m) = text)
    by (apply effective_content_given; now apply trim_nonblank_nonempty).
  destruct (begin_accepted botId (Some text) (Mounted.page m)) as (st1 & Hb & Hm & _);
    [now rewrite He | exact Hl |].
  rewrite He in Hb, Hm.
  rewrite !run_cons, run_nil.
  change (Mounted.step botId m (Mounted.Type_ text))
    with ({| Mounted.widget := Mounted.setInputValue text (Mounted.widget m);
             Mounted.page := Mounted.page m |}, @nil Http.request).
  cbn [fst snd app].
  rewrite step_Submit_nonblank by exact Hn.
  cbn [Mounted.widget Mounted.page Mounted.setInputValue ChatWidget.inputValue].
  unfold TestBot.sendMessage_begin. rewrite Hb. cbn. auto.
Qed.

Lemma typed_message_is_sent_as_typed_witness :
  snd (Mounted.run "bot-7" [Mounted.Type_ "  hello "; Mounted.Submit]
         {| Mounted.widget := Sample.opened; Mounted.page := Sample.greeted |})
  = [Page.chatRequest "bot-7" "  hello "].
Proof.
  refine (proj1 (typed_message_is_sent_as_typed "bot-7" "  hello "
                   {| Mounted.widget := Sample.opened; Mounted.page := Sample.greeted |}
                   _ _)).
  - vm_compute. discriminate.
  - reflexivity.
Defined.

(** X2: a message submitted in the widget while a request is in flight is
    lost: the widget empties its field, but the page neither records the
    message nor sends it. *)
Theorem message_submitted_while_busy_is_lost (botId : string) (m : Mounted.State) :
  Str.trim (ChatWidget.inputValue (Mounted.widget m)) <> "" ->
  Page.isLoading (Mounted.page m) = true ->
  Mounted.step botId m Mounted.Submit
  = ({| Mounted.widget := Mounted.setInputValue "" (Mounted.widget m);
        Mounted.page := Mounted.page m |}, []).
Proof.
  intros Hn Hl. rewrite step_Submit_nonblank by exact Hn.
  unfold TestBot.sendMessage_begin.
  rewrite (begin_rejected botId _ (Mounted.page m)) by now right.
  reflexivity.
Qed.

Lemma message_submitted_while_busy_is_lost_witness :
  Mounted.step "bot-7"
    {| Mounted.widget := Mounted.setInputValue "Are you there?" Sample.opened;
       Mounted.page := Sample.waiting |} Mounted.Submit
  = ({| Mounted.widget := Sample.opened; Mounted.page := Sample.waiting |}, []).
Proof.
  refine (message_submitted_while_busy_is_lost "bot-7"
            {| Mounted.widget := Mounted.setInputValue "Are you there?" Sample.opened;
               Mounted.page := Sample.waiting |} _ _).
  - vm_compute. discriminate.
  - reflexivity.
Defined.

(** *** What one event does to the page *)

Lemma begin_cases (botId : string) (mc : option string) (st : Page.State) :
  TestBot.sendMessage_begin botId mc st = (st, None)
  \/ (Page.isLoading st = false
      /\ exists st1,
           TestBot.sendMessage_begin botId mc st
           = (st1, Some (Page.chatRequest botId (Page.effective_content mc st)))
           /\ Page.messages st1
              = Page.messages st ++ [Page.userMessage (Page.effective_content mc st)]
           /\ Page.isLoading st1 = true
           /\ Page.bot st1 = Page.bot st).
Proof.
  destruct (Page.isLoading st) eqn:Hl.
  - left. apply begin_rejected. now right.
  - destruct (string_dec (Str.trim (Page.effective_content mc st)) "") as [Hc | Hc].
    + left. apply begin_rejected. now left.
    + right. split; [reflexivity |]. now apply begin_accepted.
Qed.

(** The page after an event is the old page, or the page after
    [sendMessage] has begun, after [clearChat], after [restartChat], or
    after a request in flight has settled. *)
Lemma step_page (botId : string) (m : Mounted.State) (e : Mounted.Event) :
  (Mounted.page (fst (Mounted.step botId m e)) = Mounted.page m
   /\ snd (Mounted.step botId m e) = [])
  \/ (exists message,
        Mounted.page (fst (Mounted.step botId m e))
        = fst (TestBot.sendMessage_begin botId (Some message) (Mounted.page m))
        /\ snd (Mounted.step botId m e)
           = match snd (TestBot.sendMessage_begin botId (Some message) (Mounted.page m)) with
             | Some r => [r]
             | None => []
             end)
  \/ (Mounted.page (fst (Mounted.step botId m e)) = TestBot.clearChat (Mounted.page m)
      /\ snd (Mounted.step botId m e) = [])
  \/ (Mounted.page (fst (Mounted.step botId m e)) = TestBot.restartChat (Mounted.page m)
      /\ snd (Mounted.step botId m e) = [])
  \/ (exists o,
        e = Mounted.Settle o /\ Page.isLoading (Mounted.page m) = true
        /\ Mounted.page (fst (Mounted.step botId m e))
           = TestBot.sendMessage_settle o (Mounted.page m)
        /\ snd (Mounted.step botId m e) = []).
Proof.
  destruct e as [| | text | | option | i | | | o];
    try (left; split; reflexivity).
  - (* Submit *)
    destruct (string_dec (Str.trim (ChatWidget.inputValue (Mounted.widget m))) "")
      as [Hb | Hn].
    + left. unfold Mounted.step, Mounted.withWidget, ChatWidget.handleSendMessage.
      rewrite Hb. split; reflexivity.
    + right. left. exists (ChatWidget.inputValue (Mounted.widget m)).
      rewrite step_Submit_nonblank by exact Hn. split; reflexivity.
  - (* ClickOption *)
    right. left. exists (prompt option).
    unfold Mounted.step, Mounted.withWidget, ChatWidget.handleMenuOptionClick.
    cbn [fst snd]. rewrite deliver_onSend. split; reflexivity.
  - right. right. left. split; reflexivity.
  - right. right. right. left. split; reflexivity.
  - (* Settle *)
    destruct (Page.isLoading (Mounted.page m)) eqn:Hl.
    + right. right. right. right. exists o. unfold Mounted.step. rewrite Hl.
      repeat split; reflexivity.
    + left. unfold Mounted.step. rewrite Hl. split; reflexivity.
Qed.

Lemma clearChat_isLoading (st : Page.State) :
  Page.isLoading (TestBot.clearChat st) = Page.isLoading st.
Proof. reflexivity. Qed.

Lemma restartChat_isLoading (st : Page.State) :
  Page.isLoading (TestBot.restartChat st) = Page.isLoading st.
Proof.
  unfold TestBot.restartChat. destruct (Page.bot st) as [b |]; [| reflexivity].
  now destruct (truthy (greeting_message b)).
Qed.

Lemma restartChat_messages (st : Page.State) :
  Page.messages (TestBot.restartChat st)
  = match Page.bot st with
    | Some b => if truthy (greeting_message b)
                then [Page.greeting (default "" (greeting_message b))]
                else []
    | None => []
    end.
Proof.
  unfold TestBot.restartChat. destruct (Page.bot st) as [b |]; [| reflexivity].
  now destruct (truthy (greeting_message b)).
Qed.

Lemma restartChat_bot (st : Page.State) :
  Page.bot (TestBot.restartChat st) = Page.bot st.
Proof.
  unfold TestBot.restartChat. destruct (Page.bot st) as [b |] eqn:Hb.
  - destruct (truthy (greeting_message b)); simpl; now rewrite Hb.
  - simpl. now rewrite Hb.
Qed.

(** An event other than the arrival of an answer keeps a request in
    flight in flight, and sends nothing. *)
Lemma busy_page_stays_busy (botId : string) (m : Mounted.State) (e : Mounted.Event) :
  Page.isLoading (Mounted.page m) = true ->
  (forall o, e <> Mounted.Settle o) ->
  Page.isLoading (Mounted.page (fst (Mounted.step botId m e))) = true
  /\ snd (Mounted.step botId m e) = [].
Proof.
  intros Hl Hne.
  destruct (step_page botId m e)
    as [[Hp Hr] | [(message & Hp & Hr) | [[Hp Hr] | [[Hp Hr] | (o & He & _)]]]].
  - now rewrite Hp, Hr.
  - rewrite Hp, Hr. unfold TestBot.sendMessage_begin.
    rewrite (begin_rejected botId _ (Mounted.page m)) by now right. now split.
  - now rewrite Hp, Hr, clearChat_isLoading.
  - now rewrite Hp, Hr, restartChat_isLoading.
  - now destruct (Hne o).
Qed.

(** An event sends at most one request, and a request sent leaves the
    page busy. *)
Lemma step_sends_one (botId : string) (m : Mounted.State) (e : Mounted.Event) :
  snd (Mounted.step botId m e) = []
  \/ (exists r, snd (Mounted.step botId m e) = [r])
     /\ Page.isLoading (Mounted.page (fst (Mounted.step botId m e))) = true.
Proof.
  destruct (step_page botId m e)
    as [[Hp Hr] | [(message & Hp & Hr) | [[Hp Hr] | [[Hp Hr] | (o & _ & _ & _ & Hr)]]]];
    try (now left).
  destruct (begin_cases botId (Some message) (Mounted.page m))
    as [Hb | (_ & st1 & Hb & _ & Hl1 & _)].
  - left. now rewrite Hr, Hb.
  - right. rewrite Hr, Hp, Hb. split; [now eexists | exact Hl1].
Qed.

Lemma busy_run_sends_nothing (botId : string) (es : list Mounted.Event)
  (m : Mounted.State) :
  Forall (fun e => forall o, e <> Mounted.Settle o) es ->
  Page.isLoading (Mounted.page m) = true ->
  snd (Mounted.run botId es m) = [].
Proof.
  intros Hes. revert m.
  induction Hes as [| e es He _ IH]; intros m Hl; [reflexivity |].
  rewrite run_cons. cbn [snd].
  destruct (busy_page_stays_busy botId m e Hl He) as [Hl1 ->].
  now rewrite (IH _ Hl1).
Qed.

(** X3: as long as no answer arrives, the widget sends at most one chat
    request, whatever the end user does: type, submit, click menu
    options, clear, restart, open or close the panel; and it sends none
    while a request is in flight. *)
Theorem one_request_until_answer (botId : string) (es : list Mounted.Event)
  (m : Mounted.State) :
  Forall (fun e => forall o, e <> Mounted.Settle o) es ->
  length (snd (Mounted.run botId es m)) <= 1
  /\ (Page.isLoading (Mounted.page m) = true -> snd (Mounted.run botId es m) = []).
Proof.
  intros Hes. split; [| now apply busy_run_sends_nothing].
  revert m. induction Hes as [| e es He Hes IH]; intros m; [simpl; lia |].
  rewrite run_cons. cbn [snd].
  destruct (step_sends_one botId m e) as [-> | [[r ->] Hl1]].
  - apply IH.
  - rewrite (busy_run_sends_nothing botId es _ Hes Hl1). simpl. lia.
Qed.

Lemma one_request_until_answer_witness :
  length (snd (Mounted.run "bot-7"
                 [Mounted.ClickOption Sample.pricing; Mounted.Type_ "And shipping?";
                  Mounted.Submit; Mounted.Restart; Mounted.ClickOption Sample.pricing]
                 {| Mounted.widget := Sample.opened; Mounted.page := Sample.greeted |}))
  <= 1.
Proof.
  refine (proj1 (one_request_until_answer "bot-7"
                   [Mounted.ClickOption Sample.pricing; Mounted.Type_ "And shipping?";
                    Mounted.Submit; Mounted.Restart; Mounted.ClickOption Sample.pricing]
                   {| Mounted.widget := Sample.opened; Mounted.page := Sample.greeted |}
                   _)).
  repeat constructor; discriminate.
Defined.

(** *** The shape of the history *)

Lemma endsWithUserTurn_snoc (l : list Message) (x : Message) :
  Mounted.endsWithUserTurn (l ++ [x]) = Mounted.isUserTurn x.
Proof. unfold Mounted.endsWithUserTurn. now rewrite last_snoc. Qed.

Lemma userTurnsInARow_snoc (l : list Message) (x : Message) :
  Mounted.userTurnsInARow (l ++ [x])
  = Mounted.userTurnsInARow l || (Mounted.endsWithUserTurn l && Mounted.isUserTurn x).
Proof.
  induction l as [| a l IH].
  - simpl. unfold Mounted.isUserTurn. now destruct (role x).
  - destruct l as [| b l'].
    + simpl. unfold Mounted.endsWithUserTurn, Mounted.isUserTurn. simpl.
      destruct (role a), (role x); reflexivity.
    + change ((a :: b :: l') ++ [x]) with (a :: (b :: l') ++ [x]).
      change (Mounted.endsWithUserTurn (a :: b :: l'))
        with (Mounted.endsWithUserTurn (b :: l')).
      cbn [Mounted.userTurnsInARow app] in IH |- *.
      destruct (role a); [| exact IH].
      destruct (role b); [reflexivity | exact IH].
Qed.

Lemma answer_is_assistant (o : Http.outcome Response.data) :
  Mounted.isUserTurn (Page.answer TestBot.assistantMessage o) = false.
Proof.
  unfold Page.answer, Mounted.isUserTurn. destruct o as [e | d]; [reflexivity |].
  destruct (TestBot.assistantMessage d) as [a |] eqn:Ha; [| reflexivity].
  simpl. now destruct (assistantMessage_complete d a Ha) as [-> _].
Qed.

Lemma wellFormed_begin (botId : string) (mc : option string) (st : Page.State) :
  Mounted.wellFormed st -> Mounted.wellFormed (fst (TestBot.sendMessage_begin botId mc st)).
Proof.
  intros [Hrow Hend].
  destruct (begin_cases botId mc st) as [-> | (Hl & st1 & -> & Hm & Hl1 & _)];
    [now split |].
  cbn [fst]. split; [| now intros _].
  rewrite Hm, userTurnsInARow_snoc, Hrow.
  destruct (Mounted.endsWithUserTurn (Page.messages st)); [| reflexivity].
  rewrite Hend in Hl by reflexivity. discriminate.
Qed.

Lemma wellFormed_settle (o : Http.outcome Response.data) (st : Page.State) :
  Mounted.wellFormed st -> Mounted.wellFormed (TestBot.sendMessage_settle o st).
Proof.
  intros [Hrow _]. unfold Mounted.wellFormed, TestBot.sendMessage_settle.
  rewrite settle_messages, userTurnsInARow_snoc, endsWithUserTurn_snoc,
    answer_is_assistant, Hrow, andb_false_r.
  split; [reflexivity | discriminate].
Qed.

Lemma wellFormed_restartChat (st : Page.State) : Mounted.wellFormed (TestBot.restartChat st).
Proof.
  unfold Mounted.wellFormed. rewrite restartChat_messages.
  destruct (Page.bot st) as [b |]; [| split; [reflexivity | discriminate]].
  destruct (truthy (greeting_message b)); split; try reflexivity; discriminate.
Qed.

Lemma wellFormed_step (botId : string) (m : Mounted.State) (e : Mounted.Event) :
  Mounted.wellFormed (Mounted.page m) ->
  Mounted.wellFormed (Mounted.page (fst (Mounted.step botId m e))).
Proof.
  intros Hw.
  destruct (step_page botId m e)
    as [[-> _] | [(message & -> & _) | [[-> _] | [[-> _] | (o & _ & _ & -> & _)]]]].
  - exact Hw.
  - now apply wellFormed_begin.
  - split; [reflexivity | discriminate].
  - apply wellFormed_restartChat.
  - now apply wellFormed_settle.
Qed.

Lemma wellFormed_run (botId : string) (es : list Mounted.Event) (m : Mounted.State) :
  Mounted.wellFormed (Mounted.page m) ->
  Mounted.wellFormed (Mounted.page (fst (Mounted.run botId es m))).
Proof.
  revert m. induction es as [| e es IH]; intros m Hw; [exact Hw |].
  rewrite run_cons. cbn [fst]. apply IH. now apply wellFormed_step.
Qed.

(** X4: from the moment the page has loaded its bot, whatever the end
    user does and whenever answers arrive, the history never holds two
    user turns in a row, and a user turn at its end is one whose request
    is still in flight. *)
Theorem user_turns_never_in_a_row (botId : string) (o : Http.outcome Bot)
  (es : list Mounted.Event) :
  Mounted.wellFormed
    (Mounted.page
       (fst (Mounted.run botId es
               {| Mounted.widget := Mounted.initialWidget;
                  Mounted.page := fst (Mounted.loadBot_settle o Mounted.initialPage) |}))).
Proof.
  apply (wellFormed_run botId es). cbn [Mounted.page].
  destruct o as [e | data]; [split; [reflexivity | discriminate] |].
  unfold Mounted.loadBot_settle. cbn [fst].
  destruct (truthy (greeting_message data)); split; try reflexivity; discriminate.
Qed.

Lemma step_Clear (botId : string) (m : Mounted.State) :
  Mounted.step botId m Mounted.Clear
  = ({| Mounted.widget :=
          {| ChatWidget.isOpen := ChatWidget.isOpen (Mounted.widget m);
             ChatWidget.inputValue := ""; ChatWidget.showSources := ∅ |};
        Mounted.page := TestBot.clearChat (Mounted.page m) |}, []).
Proof. reflexivity. Qed.

Lemma step_Restart (botId : string) (m : Mounted.State) :
  Mounted.step botId m Mounted.Restart
  = ({| Mounted.widget := Mounted.widget m;
        Mounted.page := TestBot.restartChat (Mounted.page m) |}, []).
Proof. reflexivity. Qed.

Lemma step_Settle_busy (botId : string) (o : Http.outcome Response.data)
  (m : Mounted.State) :
  Page.isLoading (Mounted.page m) = true ->
  Mounted.step botId m (Mounted.Settle o)
  = ({| Mounted.widget := Mounted.widget m;
        Mounted.page := TestBot.sendMessage_settle o (Mounted.page m) |}, []).
Proof. intros Hl. unfold Mounted.step. now rewrite Hl. Qed.

(** X5: an answer that arrives after the chat was cleared or restarted is
    still appended: after Clear the history is that answer alone, after
    Restart it is the restarted history followed by the answer, in both
    cases without the question it answers. *)
Theorem late_answer_lands_in_new_chat (botId : string) (o : Http.outcome Response.data)
  (m : Mounted.State) :
  Page.isLoading (Mounted.page m) = true ->
  Page.messages (Mounted.page (fst (Mounted.run botId [Mounted.Clear; Mounted.Settle o] m)))
  = [Page.answer TestBot.assistantMessage o]
  /\ Page.messages
       (Mounted.page (fst (Mounted.run botId [Mounted.Restart; Mounted.Settle o] m)))
     = Page.messages (TestBot.restartChat (Mounted.page m))
       ++ [Page.answer TestBot.assistantMessage o].
Proof.
  intros Hl. rewrite !run_cons, !run_nil. cbn [fst].
  rewrite step_Clear, step_Restart. cbn [fst].
  rewrite !step_Settle_busy
    by (cbn [Mounted.page]; now rewrite ?clearChat_isLoading, ?restartChat_isLoading).
  cbn [fst Mounted.page]. unfold TestBot.sendMessage_settle.
  now rewrite !settle_messages.
Qed.

Lemma late_answer_lands_in_new_chat_witness :
  Page.messages
    (Mounted.page
       (fst (Mounted.run "bot-7" [Mounted.Clear; Mounted.Settle (Http.Rejected Sample.timeout)]
               {| Mounted.widget := Sample.opened; Mounted.page := Sample.waiting |})))
  = [Page.errorMessage].
Proof.
  refine (proj1 (late_answer_lands_in_new_chat "bot-7" (Http.Rejected Sample.timeout)
                   {| Mounted.widget := Sample.opened; Mounted.page := Sample.waiting |} _)).
  reflexivity.
Defined.

(** *** The menu and the source panels *)

Lemma render_on_greeting (w : ChatWidget.State) (b : Bot) (g : string)
  (options : list MenuOption) :
  ChatWidget.isOpen w = true ->
  menu_options b = Some options ->
  ChatWidget.render w b [Page.greeting g]
  = Some (map (fun o => {| ChatWidget.label := option_name o;
                           ChatWidget.onClick := o |}) options).
Proof.
  intros Ho Hm. unfold ChatWidget.render, ChatWidget.renderMenuOptions.
  rewrite Ho. simpl. now rewrite Hm.
Qed.

Lemma render_after_user_turn (w : ChatWidget.State) (b : Bot) (l : list Message)
  (c : string) :
  ChatWidget.render w b (l ++ [Page.userMessage c]) = None.
Proof.
  unfold ChatWidget.render, ChatWidget.renderMenuOptions.
  destruct (ChatWidget.isOpen w); [| reflexivity].
  destruct l as [| a [| a' l']]; reflexivity.
Qed.

(** X6: for a bot with a greeting and menu options, in an open panel: the
    menu buttons are shown, one per option, once the bot is loaded and
    again after Restart; they are gone after Clear, and gone as soon as a
    message of the end user is accepted. *)
Theorem menu_comes_with_the_greeting (botId : string) (b : Bot)
  (options : list MenuOption) (m : Mounted.State) :
  Page.bot (Mounted.page m) = Some b ->
  menu_options b = Some options ->
  truthy (greeting_message b) = true ->
  ChatWidget.isOpen (Mounted.widget m) = true ->
  Mounted.menu {| Mounted.widget := Mounted.widget m;
                  Mounted.page :=
                    fst (Mounted.loadBot_settle (Http.Resolved b) Mounted.initialPage) |}
  = Some (map (fun o => {| ChatWidget.label := option_name o;
                           ChatWidget.onClick := o |}) options)
  /\ Mounted.menu (fst (Mounted.step botId m Mounted.Restart))
     = Some (map (fun o => {| ChatWidget.label := option_name o;
                              ChatWidget.onClick := o |}) options)
  /\ Mounted.menu (fst (Mounted.step botId m Mounted.Clear)) = None
  /\ (forall text : string,
        Str.trim text <> "" ->
        Page.isLoading (Mounted.page m) = false ->
        Mounted.menu (fst (Mounted.run botId [Mounted.Type_ text; Mounted.Submit] m))
        = None).
Proof.
  intros Hb Hm Hg Ho. repeat split.
  - unfold Mounted.menu, Mounted.loadBot_settle. cbn [fst Mounted.page Mounted.widget].
    rewrite Hg. simpl. now apply render_on_greeting.
  - rewrite step_Restart. unfold Mounted.menu. cbn [fst Mounted.page Mounted.widget].
    rewrite restartChat_bot, restartChat_messages, Hb, Hg.
    now apply render_on_greeting.
  - rewrite step_Clear. unfold Mounted.menu. cbn [fst Mounted.page Mounted.widget].
    change (Page.bot (TestBot.clearChat (Mounted.page m))) with (Page.bot (Mounted.page m)).
    rewrite Hb. unfold ChatWidget.render. simpl. now rewrite Ho.
  - intros text Hn Hl.
    assert (He : Page.effective_content (Some text) (Mounted.page m) = text)
      by (apply effective_content_given; now apply trim_nonblank_nonempty).
    destruct (begin_accepted botId (Some text) (Mounted.page m)) as (st1 & Hbeg & Hmsg & _ & Hbot);
      [now rewrite He | exact Hl |].
    rewrite He in Hbeg, Hmsg.
    rewrite !run_cons, run_nil.
    change (Mounted.step botId m (Mounted.Type_ text))
      with ({| Mounted.widget := Mounted.setInputValue text (Mounted.widget m);
               Mounted.page := Mounted.page m |}, @nil Http.request).
    cbn [fst snd]. rewrite step_Submit_nonblank by exact Hn.
    cbn [fst Mounted.widget Mounted.page Mounted.setInputValue ChatWidget.inputValue].
    unfold TestBot.sendMessage_begin. rewrite Hbeg. cbn [fst].
    unfold Mounted.menu. cbn [Mounted.page Mounted.widget].
    rewrite Hbot, Hb, Hmsg. apply render_after_user_turn.
Qed.

Lemma menu_comes_with_the_greeting_witness :
  Mounted.menu
    (fst (Mounted.step "bot-7"
            {| Mounted.widget := Sample.opened; Mounted.page := Sample.talking |}
            Mounted.Restart))
  = Some [{| ChatWidget.label := "Pricing"; ChatWidget.onClick := Sample.pricing |}].
Proof.
  refine (proj1 (proj2 (menu_comes_with_the_greeting "bot-7" Sample.helper [Sample.pricing]
                          {| Mounted.widget := Sample.opened; Mounted.page := Sample.talking |}
                          _ _ _ _))); reflexivity.
Defined.

(** X7: the source panels of the widget.  Unfolding the sources of a
    message and folding them again leaves them as they were, and touches
    no other message; Restart keeps every panel and the text being typed
    as they are, while Clear folds all panels and empties the field. *)
Theorem source_panels_toggle_and_reset (botId : string) (i : nat) (m : Mounted.State) :
  Mounted.sourcesShown i (Mounted.toggleSources i (Mounted.widget m))
  = negb (Mounted.sourcesShown i (Mounted.widget m))
  /\ Mounted.sourcesShown i
       (Mounted.toggleSources i (Mounted.toggleSources i (Mounted.widget m)))
     = Mounted.sourcesShown i (Mounted.widget m)
  /\ (forall j : nat,
        j <> i ->
        Mounted.sourcesShown j (Mounted.toggleSources i (Mounted.widget m))
        = Mounted.sourcesShown j (Mounted.widget m))
  /\ Mounted.widget (fst (Mounted.step botId m Mounted.Restart)) = Mounted.widget m
  /\ (forall j : nat,
        Mounted.sourcesShown j (Mounted.widget (fst (Mounted.step botId m Mounted.Clear)))
        = false)
  /\ ChatWidget.inputValue (Mounted.widget (fst (Mounted.step botId m Mounted.Clear))) = "".
Proof.
  unfold Mounted.sourcesShown, Mounted.toggleSources. cbn [ChatWidget.showSources].
  repeat split.
  - now rewrite lookup_insert_eq.
  - rewrite !lookup_insert_eq. simpl. apply negb_involutive.
  - intros j Hj. now rewrite lookup_insert_ne by congruence.
Qed.

Lemma source_panels_toggle_and_reset_witness :
  Mounted.sourcesShown 3 (Mounted.toggleSources 1 Sample.opened)
  = Mounted.sourcesShown 3 Sample.opened.
Proof.
  refine (proj1 (proj2 (proj2 (source_panels_toggle_and_reset "bot-7" 1
            {| Mounted.widget := Sample.opened; Mounted.page := Sample.greeted |})))
            3 _).
  lia.
Defined.

(** ** Sources of an answer *)

Lemma get_non_nullish (v : Js.value) (k : string) :
  ~ Sources.nullish v -> exists x, Js.get v k = Some x.
Proof.
  unfold Sources.nullish. intros Hn.
  destruct v; simpl; eauto; exfalso; apply Hn; auto.
Qed.

Lemma truthy_non_nullish (v : Js.value) : Js.truthy v = true -> ~ Sources.nullish v.
Proof. unfold Sources.nullish. intros Ht [-> | ->]; discriminate. Qed.

Lemma normalizeSource_cases (src : Js.value) :
  (Sources.nullish src /\ TestBot.normalizeSource src = None)
  \/ (~ Sources.nullish src
      /\ (TestBot.normalizeSource src = Some src
          \/ exists u t,
               TestBot.normalizeSource src
               = Some (Js.Obj [("metadata", Js.Obj [("url", u); ("title", t)])])
               /\ Js.truthy t = true)).
Proof.
  destruct (Js.get src "metadata") as [metadata |] eqn:Hm.
  - right.
    assert (Hn : ~ Sources.nullish src).
    { intros [-> | ->]; discriminate. }
    split; [exact Hn |].
    unfold TestBot.normalizeSource. rewrite Hm. cbn [mbind option_bind].
    assert (Hk : exists keep : bool,
               (if Js.truthy metadata then
                  u ← Js.get metadata "url";
                  if Js.truthy u then t ← Js.get metadata "title"; Some (Js.truthy t)
                  else Some false
                else Some false) = Some keep).
    { destruct (Js.truthy metadata) eqn:Ht; [| now eexists].
      apply truthy_non_nullish in Ht.
      destruct (get_non_nullish metadata "url" Ht) as [u ->].
      destruct (get_non_nullish metadata "title" Ht) as [t ->].
      cbn [mbind option_bind]. destruct (Js.truthy u); now eexists. }
    destruct Hk as [keep ->]. cbn [mbind option_bind].
    destruct keep; [now left | right].
    destruct (get_non_nullish src "url" Hn) as [url ->].
    destruct (get_non_nullish src "source_url" Hn) as [source_url ->].
    destruct (get_non_nullish src "link" Hn) as [link ->].
    destruct (get_non_nullish src "title" Hn) as [title ->].
    destruct (get_non_nullish src "name" Hn) as [name ->].
    destruct (get_non_nullish src "filename" Hn) as [filename ->].
    cbn [mbind option_bind]. do 2 eexists. split; [reflexivity |].
    now apply or_truthy.
  - left.
    assert (Hn : Sources.nullish src).
    { destruct src; try discriminate; [now right | now left]. }
    split; [exact Hn |].
    unfold TestBot.normalizeSource. now rewrite Hm.
Qed.

Lemma normalizeSources_Some (raw : option (list Js.value)) :
  Forall (fun src => ~ Sources.nullish src) (default [] raw) ->
  exists srcs,
    TestBot.normalizeSources raw = Some srcs
    /\ Forall2 Sources.keptOrRebuilt (default [] raw) srcs.
Proof.
  unfold TestBot.normalizeSources. intros Hall.
  destruct (0 <? length (default [] raw))%nat eqn:Hlen.
  - clear Hlen. induction Hall as [| src l Hsrc _ (srcs & IHm & IHf)].
    + exists []. split; [reflexivity | constructor].
    + destruct (normalizeSource_cases src) as [[Hn _] | (_ & Hcase)];
        [contradiction |].
      assert (Hout : exists out, TestBot.normalizeSource src = Some out
                                 /\ Sources.keptOrRebuilt src out).
      { destruct Hcase as [H | (u & t & H & Ht)].
        - exists src. split; [exact H | now left].
        - eexists. split; [exact H | right; eauto]. }
      destruct Hout as (out & Hout & Hk).
      exists (out :: srcs). split; [| now constructor].
      cbn [mapM]. rewrite Hout. cbn [mbind option_bind]. rewrite IHm. reflexivity.
  - apply Nat.ltb_ge in Hlen.
    destruct (default [] raw); [| simpl in Hlen; lia].
    exists []. split; [reflexivity | constructor].
Qed.

Lemma normalizeSources_None (raw : option (list Js.value)) :
  Exists Sources.nullish (default [] raw) -> TestBot.normalizeSources raw = None.
Proof.
  unfold TestBot.normalizeSources. intros Hex.
  destruct (0 <? length (default [] raw))%nat eqn:Hlen.
  - clear Hlen. induction Hex as [src l Hn | src l _ IH].
    + destruct (normalizeSource_cases src) as [[_ H] | [Hnn _]]; [| contradiction].
      cbn [mapM]. now rewrite H.
    + cbn [mapM]. rewrite IH. now destruct (TestBot.normalizeSource src).
  - apply Nat.ltb_ge in Hlen.
    destruct (default [] raw); [inversion Hex | simpl in Hlen; lia].
Qed.

Lemma nullish_dec (v : Js.value) : {Sources.nullish v} + {~ Sources.nullish v}.
Proof.
  unfold Sources.nullish.
  destruct v; try (right; intros [H | H]; discriminate); left; auto.
Qed.

(** X8: one [null] entry among the sources of a successful answer makes
    the page drop the answer: the turn appended is the apology, without
    the text of the answer and without sources. *)
Theorem null_source_replaces_answer_by_apology (d : Response.data) (st : Page.State) :
  Exists Sources.nullish (default [] (Response.sources d)) ->
  Page.messages (TestBot.sendMessage_settle (Http.Resolved d) st)
  = Page.messages st ++ [Page.errorMessage].
Proof.
  intros Hex. unfold TestBot.sendMessage_settle. rewrite settle_messages.
  unfold Page.answer, TestBot.assistantMessage.
  now rewrite (normalizeSources_None _ Hex).
Qed.

Lemma null_source_replaces_answer_by_apology_witness :
  Page.messages
    (TestBot.sendMessage_settle
       (Http.Resolved
          {| Response.message := "Our refund window is 30 days.";
             Response.summary := None; Response.legal_response := Js.Undefined;
             Response.sources := Some [Js.Obj [("title", Js.Str "Refunds")]; Js.Null] |})
       Sample.waiting)
  = [Page.userMessage "Hello"; Page.errorMessage].
Proof.
  refine (null_source_replaces_answer_by_apology
            {| Response.message := "Our refund window is 30 days.";
               Response.summary := None; Response.legal_response := Js.Undefined;
               Response.sources := Some [Js.Obj [("title", Js.Str "Refunds")]; Js.Null] |}
            Sample.waiting _).
  simpl. apply Exists_cons_tl, Exists_cons_hd. now left.
Defined.

(** X9: when no source of a successful answer is [null], the turn
    appended holds the text of the answer and as many sources as the
    answer had, in the same order; each is the source as it came, or a
    new object with nothing but a [metadata] record of [url] and [title],
    so that any other field of a rebuilt source, such as a snippet or a
    score, is gone. *)
Theorem sources_kept_or_rebuilt_in_place (d : Response.data) (st : Page.State) :
  Forall (fun src => ~ Sources.nullish src) (default [] (Response.sources d)) ->
  exists srcs,
    Page.messages (TestBot.sendMessage_settle (Http.Resolved d) st)
    = Page.messages st
      ++ [{| role := assistant; content := Response.message d;
             legal_response := Js.Undefined; sources := Some srcs |}]
    /\ Forall2 Sources.keptOrRebuilt (default [] (Response.sources d)) srcs.
Proof.
  intros Hall. destruct (normalizeSources_Some _ Hall) as (srcs & Hs & Hf).
  exists srcs. split; [| exact Hf].
  unfold TestBot.sendMessage_settle. rewrite settle_messages.
  unfold Page.answer, TestBot.assistantMessage. now rewrite Hs.
Qed.

Lemma sources_kept_or_rebuilt_in_place_witness :
  exists srcs,
    Page.messages (TestBot.sendMessage_settle (Http.Resolved Sample.refund) Sample.waiting)
    = Page.messages Sample.waiting
      ++ [{| role := assistant; content := "Our refund window is 30 days.";
             legal_response := Js.Undefined; sources := Some srcs |}]
    /\ Forall2 Sources.keptOrRebuilt (default [] (Response.sources Sample.refund)) srcs.
Proof.
  refine (sources_kept_or_rebuilt_in_place Sample.refund Sample.waiting _).
  simpl. repeat constructor; intros [H | H]; discriminate.
Defined.

(** ** The page with the legal panel *)


(** ** Clearing and restarting *)

(** X11: [clearChat] and [restartChat] are idempotent, and the later of
    the two decides: restarting a cleared chat is restarting, and clearing
    a restarted chat is clearing. *)
Theorem clear_and_restart_compose (st : Page.State) :
  TestBot.clearChat (TestBot.clearChat st) = TestBot.clearChat st
  /\ TestBot.restartChat (TestBot.restartChat st) = TestBot.restartChat st
  /\ TestBot.restartChat (TestBot.clearChat st) = TestBot.restartChat st
  /\ TestBot.clearChat (TestBot.restartChat st) = TestBot.clearChat st.
Proof.
  destruct st as [msgs input loading [b |] panels menu];
    unfold TestBot.restartChat, TestBot.clearChat; simpl;
    [destruct (truthy (greeting_message b)) eqn:Hg; simpl; rewrite ?Hg |];
    repeat split; reflexivity.
Qed.

(** ** Building and updating a bot *)

Lemma for_each_accepted {X : Type} (net : Handler.network) (req : X -> Http.request)
  (xs : list X) (log : list Http.request) :
  (forall log' x, In x xs -> exists d, net log' (req x) = Http.Resolved d) ->
  Handler.for_each xs
    (fun x => Handler.bind (Handler.await net (req x)) (fun _ => Handler.ret tt)) log
  = (log ++ map req xs, Http.Resolved tt).
Proof.
  revert log. induction xs as [| x xs IH]; intros log Hacc.
  - simpl. unfold Handler.ret. now rewrite app_nil_r.
  - cbn [Handler.for_each map]. unfold Handler.bind at 1, Handler.bind at 1, Handler.await.
    destruct (Hacc log x (or_introl eq_refl)) as [d ->].
    unfold Handler.ret at 1. rewrite IH by (intros; apply Hacc; now right).
    now rewrite <- app_assoc.
Qed.

Lemma for_each_try_log (net : Handler.network) (botId : string)
  (us : list string) (log : list Http.request) :
  Handler.for_each us (fun url => Handler.try_log (Handler.submitUrl net botId url)) log
  = (log ++ map (Handler.urlRequest botId) us, Http.Resolved tt).
Proof.
  revert log. induction us as [| u us IH]; intros log.
  - simpl. unfold Handler.ret. now rewrite app_nil_r.
  - cbn [Handler.for_each map]. unfold Handler.bind at 1, Handler.try_log at 1.
    unfold Handler.submitUrl at 1, Handler.bind at 1, Handler.await.
    destruct (net log (Handler.urlRequest botId u)); unfold Handler.ret;
      cbv beta iota; rewrite IH; now rewrite <- app_assoc.
Qed.

Lemma for_each_upload (net : Handler.network) (botId : string)
  (files : list Http.File) (log : list Http.request) :
  (forall log' f, exists d, net log' (Handler.documentRequest botId f) = Http.Resolved d) ->
  Handler.for_each files (Handler.uploadDocument net botId) log
  = (log ++ map (Handler.documentRequest botId) files, Http.Resolved tt).
Proof.
  intros Hacc.
  exact (for_each_accepted net (Handler.documentRequest botId) files log
           (fun log' f _ => Hacc log' f)).
Qed.

Lemma for_each_submit (net : Handler.network) (botId : string)
  (us : list string) (log : list Http.request) :
  (forall log' u, exists d, net log' (Handler.urlRequest botId u) = Http.Resolved d) ->
  Handler.for_each us (Handler.submitUrl net botId) log
  = (log ++ map (Handler.urlRequest botId) us, Http.Resolved tt).
Proof.
  intros Hacc.
  exact (for_each_accepted net (Handler.urlRequest botId) us log
           (fun log' u _ => Hacc log' u)).
Qed.

Lemma uploadFiles_accepted (net : Handler.network) (botId : string)
  (files : option (list Http.File)) (log : list Http.request) :
  (forall log' f, exists d, net log' (Handler.documentRequest botId f) = Http.Resolved d) ->
  Handler.uploadFiles net botId files log
  = (log ++ map (Handler.documentRequest botId) (default [] files), Http.Resolved tt).
Proof.
  intros Hacc. unfold Handler.uploadFiles.
  destruct files as [[| f fs] |].
  - cbn. unfold Handler.ret. now rewrite app_nil_r.
  - cbn [length Nat.ltb Nat.leb default]. now apply for_each_upload.
  - cbn. unfold Handler.ret. now rewrite app_nil_r.
Qed.

Lemma urlList_blank (urls : string) :
  Str.trim urls = "" -> Handler.urlList urls = [].
Proof. intros H. unfold Handler.urlList. now rewrite H. Qed.

(** X12: when the back end accepts every request, [handleBuildBot] sends
    the creation of the bot, then one upload per selected file in the
    order of the selection, then one submission per non-blank line of the
    URL field in the order of the lines, then the reload of the bot list;
    it ends with the form emptied and no error. *)
Theorem build_posts_every_item_in_order (net : Handler.network) (st : Dashboard.State)
  (created : Handler.reply) :
  Str.trim (Dashboard.botName st) <> "" ->
  EditBotForm.acceptsAll net ->
  net [] (Dashboard.createBot st) = Http.Resolved created ->
  snd (Dashboard.handleBuildBot net st)
  = [Dashboard.createBot st]
    ++ map (Handler.documentRequest (Handler.id created))
         (default [] (Dashboard.selectedFiles st))
    ++ map (Handler.urlRequest (Handler.id created)) (Handler.urlList (Dashboard.urls st))
    ++ [Http.get "/api/bots/"]
  /\ Dashboard.error (fst (Dashboard.handleBuildBot net st)) = ""
  /\ Dashboard.botName (fst (Dashboard.handleBuildBot net st)) = ""
  /\ Dashboard.selectedFiles (fst (Dashboard.handleBuildBot net st)) = None
  /\ Dashboard.urls (fst (Dashboard.handleBuildBot net st)) = "".
Proof.
  intros Hname Hacc Hcreate. apply truthy_true_iff in Hname.
  assert (Hrun : Dashboard.buildBot net st []
                 = ([Dashboard.createBot st]
                    ++ map (Handler.documentRequest (Handler.id created))
                         (default [] (Dashboard.selectedFiles st))
                    ++ map (Handler.urlRequest (Handler.id created))
                         (Handler.urlList (Dashboard.urls st))
                    ++ [Http.get "/api/bots/"],
                    Http.Resolved tt)).
  { unfold Dashboard.buildBot, Handler.bind at 1, Handler.await at 1.
    rewrite Hcreate. cbn [app].
    unfold Handler.bind at 1. rewrite uploadFiles_accepted by (intros; apply Hacc).
    unfold Handler.bind at 1.
    destruct (Str.truthy (Str.trim (Dashboard.urls st))) eqn:Hu.
    - rewrite for_each_submit by (intros; apply Hacc).
      unfold Handler.fire. now rewrite <- !app_assoc.
    - apply truthy_false_iff in Hu. rewrite (urlList_blank _ Hu).
      unfold Handler.ret, Handler.fire. cbn [map app]. now rewrite <- ?app_assoc. }
  unfold Dashboard.handleBuildBot. rewrite Hname. cbn [negb].
  rewrite Hrun. repeat split.
Qed.

Lemma build_posts_every_item_in_order_witness :
  snd (Dashboard.handleBuildBot Cases.friendly Sample.two_files)
  = [Dashboard.createBot Sample.two_files;
     Handler.documentRequest "bot-7" Sample.a_pdf;
     Handler.documentRequest "bot-7" Sample.b_pdf;
     Handler.urlRequest "bot-7" "https://up.example";
     Http.get "/api/bots/"].
Proof.
  refine (proj1 (build_posts_every_item_in_order Cases.friendly Sample.two_files
                   {| Handler.id := "bot-7"; Handler.avatar := "/avatars/7.png" |}
                   _ _ _)).
  - vm_compute. discriminate.
  - intros log r. eexists. reflexivity.
  - reflexivity.
Defined.

Lemma handleUpdateBot_accepted (net : Handler.network) (botId : string)
  (st : EditBot.State) :
  Str.trim (EditBot.botName st) <> "" ->
  EditBotForm.acceptsUpdate net botId st ->
  exists avatarUrl,
    snd (EditBot.handleUpdateBot net botId st)
    = match EditBot.botAvatarFile st with
      | Some file => [EditBotForm.avatarRequest botId file]
      | None => []
      end
      ++ [EditBot.updateBot botId avatarUrl st]
      ++ map (Handler.documentRequest botId) (default [] (EditBot.selectedFiles st))
      ++ map (Handler.urlRequest botId) (Handler.urlList (EditBot.urls st))
      ++ [Http.get (String.append "/api/bots/" botId)]
    /\ EditBot.error (fst (EditBot.handleUpdateBot net botId st)) = ""
    /\ EditBot.success (fst (EditBot.handleUpdateBot net botId st))
       = String.append Handler.tada
           (String.append " Bot "
              (String.append Handler.quote
                 (String.append (EditBot.botName st)
                    (String.append Handler.quote " updated successfully!"))))
    /\ EditBot.isLoading (fst (EditBot.handleUpdateBot net botId st)) = false.
Proof.
  intros Hname (Havatar & Hupdate & Hdocs). apply truthy_true_iff in Hname.
  assert (Hrest : forall avatarUrl log,
             Handler.bind (Handler.await net (EditBot.updateBot botId avatarUrl st))
               (fun _ =>
                  Handler.bind (Handler.uploadFiles net botId (EditBot.selectedFiles st))
                    (fun _ =>
                       Handler.bind
                         (if Str.truthy (Str.trim (EditBot.urls st))
                          then Handler.for_each (Handler.urlList (EditBot.urls st))
                                 (fun url => Handler.try_log (Handler.submitUrl net botId url))
                          else Handler.ret tt)
                         (fun _ => Handler.fire (Http.get ("/api/bots/" ++ botId))))) log
             = (log ++ [EditBot.updateBot botId avatarUrl st]
                ++ map (Handler.documentRequest botId) (default [] (EditBot.selectedFiles st))
                ++ map (Handler.urlRequest botId) (Handler.urlList (EditBot.urls st))
                ++ [Http.get ("/api/bots/" ++ botId)],
                Http.Resolved tt)).
  { intros avatarUrl log. unfold Handler.bind at 1, Handler.await at 1.
    destruct (Hupdate log avatarUrl) as [d ->].
    unfold Handler.bind at 1. rewrite uploadFiles_accepted by exact Hdocs.
    unfold Handler.bind at 1.
    destruct (Str.truthy (Str.trim (EditBot.urls st))) eqn:Hu.
    - rewrite for_each_try_log. unfold Handler.fire. now rewrite <- !app_assoc.
    - apply truthy_false_iff in Hu. rewrite (urlList_blank _ Hu).
      unfold Handler.ret, Handler.fire. cbn [map app]. now rewrite <- ?app_assoc. }
  assert (Hrun : exists avatarUrl,
             EditBot.saveBot net botId st []
             = (match EditBot.botAvatarFile st with
                | Some file => [EditBotForm.avatarRequest botId file]
                | None => []
                end
                ++ [EditBot.updateBot botId avatarUrl st]
                ++ map (Handler.documentRequest botId) (default [] (EditBot.selectedFiles st))
                ++ map (Handler.urlRequest botId) (Handler.urlList (EditBot.urls st))
                ++ [Http.get ("/api/bots/" ++ botId)],
                Http.Resolved tt)).
  { unfold EditBot.saveBot. destruct (EditBot.botAvatarFile st) as [file |].
    - destruct (Havatar [] file) as [d Hd].
      exists (Handler.avatar d).
      unfold Handler.bind at 1, Handler.bind at 1, Handler.await at 1.
      change (Http.post ("/api/bots/" ++ botId ++ "/avatar")
                (Http.FormData [("file", file)]) Handler.multipart)
        with (EditBotForm.avatarRequest botId file).
      rewrite Hd. unfold Handler.ret at 1. cbv beta iota. apply Hrest.
    - exists (EditBot.botAvatar st).
      unfold Handler.bind at 1, Handler.ret at 1. cbv beta iota. apply Hrest. }
  destruct Hrun as [avatarUrl Hrun]. exists avatarUrl.
  unfold EditBot.handleUpdateBot. rewrite Hname. cbn [negb].
  rewrite Hrun. repeat split.
Qed.


(** X13: [handleUpdateBot] reports success whatever becomes of the URLs.
    When the back end accepts the avatar, the update and the uploads,
    every non-blank line of the URL field is submitted, in order, whether
    or not earlier submissions were rejected, and the page ends with the
    success banner and no error, even if every URL was rejected. *)
Theorem update_succeeds_whatever_the_urls (net : Handler.network) (botId : string)
  (st : EditBot.State) :
  Str.trim (EditBot.botName st) <> "" ->
  EditBotForm.acceptsUpdate net botId st ->
  exists avatarUrl,
    snd (EditBot.handleUpdateBot net botId st)
    = match EditBot.botAvatarFile st with
      | Some file => [EditBotForm.avatarRequest botId file]
      | None => []
      end
      ++ [EditBot.updateBot botId avatarUrl st]
      ++ map (Handler.documentRequest botId) (default [] (EditBot.selectedFiles st))
      ++ map (Handler.urlRequest botId) (Handler.urlList (EditBot.urls st))
      ++ [Http.get (String.append "/api/bots/" botId)]
    /\ EditBot.error (fst (EditBot.handleUpdateBot net botId st)) = ""
    /\ EditBot.success (fst (EditBot.handleUpdateBot net botId st))
       = String.append Handler.tada
           (String.append " Bot "
              (String.append Handler.quote
                 (String.append (EditBot.botName st)
                    (String.append Handler.quote " updated successfully!"))))
    /\ EditBot.isLoading (fst (EditBot.handleUpdateBot net botId st)) = false.
Proof.
  intros Hname Hacc.
  destruct (handleUpdateBot_accepted net botId st Hname Hacc)
    as (avatarUrl & Hlog & Herr & Hok & Hload).
  exists avatarUrl. now repeat split.
Qed.

Lemma update_succeeds_whatever_the_urls_witness :
  exists avatarUrl,
    snd (EditBot.handleUpdateBot Cases.offline "bot-7" Sample.two_urls)
    = [] ++ [EditBot.updateBot "bot-7" avatarUrl Sample.two_urls]
      ++ [] ++ [Handler.urlRequest "bot-7" "https://down.example";
                Handler.urlRequest "bot-7" "https://up.example"]
      ++ [Http.get "/api/bots/bot-7"]
    /\ EditBot.error (fst (EditBot.handleUpdateBot Cases.offline "bot-7" Sample.two_urls)) = ""
    /\ EditBot.success (fst (EditBot.handleUpdateBot Cases.offline "bot-7" Sample.two_urls))
       = String.append Handler.tada
           (String.append " Bot "
              (String.append Handler.quote
                 (String.append "Shop" (String.append Handler.quote " updated successfully!"))))
    /\ EditBot.isLoading (fst (EditBot.handleUpdateBot Cases.offline "bot-7" Sample.two_urls))
       = false.
Proof.
  refine (update_succeeds_whatever_the_urls Cases.offline "bot-7" Sample.two_urls _ _).
  - vm_compute. discriminate.
  - repeat split; intros; eexists; reflexivity.
Defined.

(** ** Lines of the URL field *)

Lemma trimStart_empty_iff (s : string) : Str.trimStart s = "" <-> Lines.allSpace s = true.
Proof.
  induction s as [| c s IH]; simpl; [tauto |].
  destruct (Str.is_space c); simpl; [exact IH |]. split; discriminate.
Qed.

Lemma trimEnd_empty_iff (s : string) : Str.trimEnd s = "" <-> Lines.allSpace s = true.
Proof.
  induction s as [| c s IH]; simpl; [tauto |].
  destruct (Str.is_space c); simpl.
  - destruct (Str.trimEnd s) eqn:Ht; simpl.
    + split; [intros _; now apply IH | reflexivity].
    + split; [discriminate |]. intros H. apply IH in H. discriminate.
  - split; discriminate.
Qed.

Lemma trimEnd_cons (c : ascii) (s : string) :
  Str.trimEnd (String c s)
  = if Str.is_space c && negb (Str.truthy (Str.trimEnd s)) then ""
    else String c (Str.trimEnd s).
Proof. reflexivity. Qed.

Lemma trim_commute (s : string) :
  Str.trimEnd (Str.trimStart s) = Str.trimStart (Str.trimEnd s).
Proof.
  induction s as [| c s IH]; [reflexivity |].
  rewrite trimEnd_cons. cbn [Str.trimStart].
  destruct (Str.is_space c) eqn:Hc; cbn [andb].
  - rewrite IH. destruct (Str.trimEnd s) eqn:Ht; cbn [Str.truthy negb].
    + reflexivity.
    + cbn [Str.trimStart]. now rewrite Hc.
  - rewrite trimEnd_cons, Hc. cbn [andb Str.trimStart]. now rewrite Hc.
Qed.

Lemma trimStart_idem (s : string) : Str.trimStart (Str.trimStart s) = Str.trimStart s.
Proof.
  induction s as [| c s IH]; [reflexivity |]. simpl.
  destruct (Str.is_space c) eqn:Hc; [exact IH |]. simpl. now rewrite Hc.
Qed.

Lemma trimEnd_idem (s : string) : Str.trimEnd (Str.trimEnd s) = Str.trimEnd s.
Proof.
  induction s as [| c s IH]; [reflexivity |].
  rewrite trimEnd_cons.
  destruct (Str.is_space c && negb (Str.truthy (Str.trimEnd s))) eqn:Hb; [reflexivity |].
  rewrite trimEnd_cons, IH, Hb. reflexivity.
Qed.

Lemma trim_idem (s : string) : Str.trim (Str.trim s) = Str.trim s.
Proof.
  unfold Str.trim.
  rewrite (trim_commute (Str.trimEnd (Str.trimStart s))), trimEnd_idem.
  rewrite <- trim_commute, trimStart_idem. reflexivity.
Qed.

Lemma trim_space_cons (c : ascii) (s : string) :
  Str.is_space c = true -> Str.trim (String c s) = Str.trim s.
Proof. intros Hc. unfold Str.trim. simpl. now rewrite Hc. Qed.

Lemma trim_of_trimEnd (s : string) : Str.trim (Str.trimEnd s) = Str.trim s.
Proof.
  unfold Str.trim. now rewrite trim_commute, trimEnd_idem, <- trim_commute.
Qed.

Lemma trim_eq_of_trimEnd_eq (a b : string) :
  Str.trimEnd a = Str.trimEnd b -> Str.trim a = Str.trim b.
Proof. intros H. now rewrite <- (trim_of_trimEnd a), <- (trim_of_trimEnd b), H. Qed.

Lemma occurs_trimStart (c : ascii) (s : string) :
  EditBotForm.occurs c s = false -> EditBotForm.occurs c (Str.trimStart s) = false.
Proof.
  induction s as [| c' s IH]; simpl; [reflexivity |]. intros H.
  apply orb_false_elim in H as [H1 H2].
  destruct (Str.is_space c'); [now apply IH | simpl; now rewrite H1, H2].
Qed.

Lemma occurs_trimEnd (c : ascii) (s : string) :
  EditBotForm.occurs c s = false -> EditBotForm.occurs c (Str.trimEnd s) = false.
Proof.
  induction s as [| c' s IH]; [reflexivity |]. intros H. simpl in H.
  apply orb_false_elim in H as [H1 H2]. rewrite trimEnd_cons.
  destruct (Str.is_space c' && negb (Str.truthy (Str.trimEnd s))); [reflexivity |].
  simpl. now rewrite H1, IH.
Qed.

Lemma occurs_trim (c : ascii) (s : string) :
  EditBotForm.occurs c s = false -> EditBotForm.occurs c (Str.trim s) = false.
Proof. intros H. unfold Str.trim. now apply occurs_trimEnd, occurs_trimStart. Qed.

(** [split] never gives an empty list, and follows the first character. *)
Lemma split_cons_sep (sep : ascii) (s : string) :
  Str.split sep (String sep s) = "" :: Str.split sep s.
Proof. simpl. now rewrite Ascii.eqb_refl. Qed.

Lemma split_cons_other (sep c : ascii) (s : string) :
  Ascii.eqb c sep = false ->
  exists h t, Str.split sep s = h :: t
              /\ Str.split sep (String c s) = String c h :: t.
Proof.
  intros Hc. simpl. rewrite Hc.
  assert (Hne : exists h t, Str.split sep s = h :: t).
  { destruct s as [| c' s']; simpl; [now eexists _, _ |].
    destruct (Ascii.eqb c' sep); [now eexists _, _ |].
    destruct (Str.split sep s'); now eexists _, _. }
  destruct Hne as (h & t & ->). now exists h, t.
Qed.

Lemma split_pieces (sep : ascii) (s : string) :
  Forall (fun piece => EditBotForm.occurs sep piece = false) (Str.split sep s).
Proof.
  induction s as [| c s IH]; [repeat constructor |].
  destruct (Ascii.eqb c sep) eqn:Hc.
  - apply Ascii.eqb_eq in Hc. subst c. rewrite split_cons_sep. now constructor.
  - destruct (split_cons_other sep c s Hc) as (h & t & Hs & ->).
    rewrite Hs in IH. inversion IH as [| ? ? Hh Ht]; subst.
    constructor; [| exact Ht]. simpl.
    rewrite Ascii.eqb_sym, Hc. exact Hh.
Qed.

Lemma is_space_newline : Str.is_space Str.newline = true.
Proof. reflexivity. Qed.

Lemma nonblank_empty : Lines.nonblank "" = false.
Proof. reflexivity. Qed.

Lemma entries_cons (h : string) (t : list string) :
  Lines.entries (h :: t)
  = (if Lines.nonblank h then [Str.trim h] else []) ++ Lines.entries t.
Proof. unfold Lines.entries. simpl. now destruct (Lines.nonblank h). Qed.

Lemma entries_head_eq (h h' : string) (t t' : list string) :
  Str.trimEnd h = Str.trimEnd h' ->
  Lines.entries t = Lines.entries t' ->
  Lines.entries (h :: t) = Lines.entries (h' :: t').
Proof.
  intros Hh Ht. rewrite !entries_cons, Ht. unfold Lines.nonblank.
  now rewrite (trim_eq_of_trimEnd_eq h h' Hh).
Qed.

Lemma entries_split_space (c : ascii) (s : string) :
  Str.is_space c = true ->
  Lines.entries (Str.split Str.newline (String c s))
  = Lines.entries (Str.split Str.newline s).
Proof.
  intros Hc. destruct (Ascii.eqb c Str.newline) eqn:Hn.
  - apply Ascii.eqb_eq in Hn. subst c. rewrite split_cons_sep.
    now rewrite entries_cons, nonblank_empty.
  - destruct (split_cons_other Str.newline c s Hn) as (h & t & -> & ->).
    rewrite !entries_cons. unfold Lines.nonblank.
    now rewrite (trim_space_cons c h Hc).
Qed.

Lemma entries_trimStart (s : string) :
  Lines.entries (Str.split Str.newline (Str.trimStart s))
  = Lines.entries (Str.split Str.newline s).
Proof.
  induction s as [| c s IH]; [reflexivity |]. cbn [Str.trimStart].
  destruct (Str.is_space c) eqn:Hc; [| reflexivity].
  now rewrite IH, entries_split_space.
Qed.

Lemma entries_allSpace (s : string) :
  Lines.allSpace s = true -> Lines.entries (Str.split Str.newline s) = [].
Proof.
  intros H. apply trimStart_empty_iff in H.
  now rewrite <- entries_trimStart, H.
Qed.

(** The lines of a string and the lines of the string without the white
    space at its end: the first lines agree up to the white space at
    their ends, the other lines have the same entries. *)
Lemma split_trimEnd (s : string) :
  exists h t h' t',
    Str.split Str.newline (Str.trimEnd s) = h :: t
    /\ Str.split Str.newline s = h' :: t'
    /\ Str.trimEnd h = Str.trimEnd h'
    /\ Lines.entries t = Lines.entries t'.
Proof.
  induction s as [| c s (h & t & h' & t' & Hx & Hs & Hh & Ht)].
  - now exists "", [], "", [].
  - rewrite trimEnd_cons.
    destruct (Str.is_space c && negb (Str.truthy (Str.trimEnd s))) eqn:Hb.
    + apply andb_true_iff in Hb as [Hc Hempty].
      apply negb_true_iff, truthy_false_iff in Hempty.
      rewrite Hempty in Hx. simpl in Hx. injection Hx as <- <-.
      destruct (Ascii.eqb c Str.newline) eqn:Hn.
      * apply Ascii.eqb_eq in Hn. subst c. rewrite split_cons_sep.
        exists "", [], "", (Str.split Str.newline s).
        repeat split.
        apply trimEnd_empty_iff in Hempty. now rewrite entries_allSpace.
      * destruct (split_cons_other Str.newline c s Hn) as (h2 & t2 & Hs2 & ->).
        rewrite Hs in Hs2. injection Hs2 as <- <-.
        exists "", [], (String c h'), t'. repeat split; [| exact Ht].
        rewrite trimEnd_cons, <- Hh, Hc. reflexivity.
    + destruct (Ascii.eqb c Str.newline) eqn:Hn.
      * apply Ascii.eqb_eq in Hn. subst c. rewrite !split_cons_sep.
        exists "", (Str.split Str.newline (Str.trimEnd s)), "", (Str.split Str.newline s).
        repeat split. rewrite Hx, Hs. now apply entries_head_eq.
      * destruct (split_cons_other Str.newline c (Str.trimEnd s) Hn)
          as (h1 & t1 & Hx1 & ->).
        destruct (split_cons_other Str.newline c s Hn) as (h2 & t2 & Hs2 & ->).
        rewrite Hx in Hx1. injection Hx1 as <- <-.
        rewrite Hs in Hs2. injection Hs2 as <- <-.
        exists (String c h), t, (String c h'), t'. repeat split; [| exact Ht].
        now rewrite !trimEnd_cons, Hh.
Qed.

Lemma entries_trimEnd (s : string) :
  Lines.entries (Str.split Str.newline (Str.trimEnd s))
  = Lines.entries (Str.split Str.newline s).
Proof.
  destruct (split_trimEnd s) as (h & t & h' & t' & -> & -> & Hh & Ht).
  now apply entries_head_eq.
Qed.

Lemma entries_trim (s : string) :
  Lines.entries (Str.split Str.newline (Str.trim s))
  = Lines.entries (Str.split Str.newline s).
Proof. unfold Str.trim. now rewrite entries_trimEnd, entries_trimStart. Qed.

Lemma urlList_entries (urls : string) :
  map Str.trim (Handler.urlList urls) = Lines.entries (Str.split Str.newline urls).
Proof. unfold Handler.urlList. apply entries_trim. Qed.

Lemma split_no_sep (sep : ascii) (x : string) :
  EditBotForm.occurs sep x = false -> Str.split sep x = [x].
Proof.
  induction x as [| c x IH]; [reflexivity |].
  cbn [Str.split EditBotForm.occurs]. intros H.
  apply orb_false_elim in H as [Hc Hx]. rewrite Ascii.eqb_sym, Hc.
  now rewrite (IH Hx).
Qed.

Lemma split_app_sep (sep : ascii) (x rest : string) :
  EditBotForm.occurs sep x = false ->
  Str.split sep (String.append x (String sep rest)) = x :: Str.split sep rest.
Proof.
  induction x as [| c x IH]; intros H.
  - simpl. now rewrite Ascii.eqb_refl.
  - cbn [EditBotForm.occurs] in H. apply orb_false_elim in H as [Hc Hx].
    change (String.append (String c x) (String sep rest))
      with (String c (String.append x (String sep rest))).
    cbn [Str.split]. rewrite Ascii.eqb_sym, Hc.
    now rewrite (IH Hx).
Qed.

Lemma split_concat (us : list string) :
  us <> [] ->
  Forall (fun u => EditBotForm.occurs Str.newline u = false) us ->
  Str.split Str.newline (String.concat EditBotForm.lineBreak us) = us.
Proof.
  intros Hne Hall. induction Hall as [| u us Hu Hus IH]; [contradiction |].
  destruct us as [| u' us'].
  - simpl. now apply split_no_sep.
  - change (String.concat EditBotForm.lineBreak (u :: u' :: us'))
      with (String.append u
              (String Str.newline (String.concat EditBotForm.lineBreak (u' :: us')))).
    rewrite split_app_sep by exact Hu. now rewrite IH.
Qed.

Lemma entries_concat (us : list string) :
  Forall (fun u => EditBotForm.occurs Str.newline u = false) us ->
  Lines.entries (Str.split Str.newline (String.concat EditBotForm.lineBreak us))
  = Lines.entries us.
Proof.
  intros Hall. destruct us as [| u us]; [reflexivity |].
  now rewrite split_concat.
Qed.

Lemma occurs_substringFrom (c : ascii) (n : nat) (s : string) :
  EditBotForm.occurs c s = false ->
  EditBotForm.occurs c (EditBotForm.substringFrom n s) = false.
Proof.
  revert s. induction n as [| n IH]; intros s H; [exact H |].
  destruct s as [| c' s]; [reflexivity |].
  cbn [EditBotForm.occurs EditBotForm.substringFrom] in H |- *.
  apply orb_false_elim in H as [_ H]. now apply IH.
Qed.

Lemma documentUrls_no_newline (docs : list EditBotForm.Document) :
  Forall (fun doc => EditBotForm.occurs Str.newline (EditBotForm.filename doc) = false) docs ->
  Forall (fun u => EditBotForm.occurs Str.newline u = false) (EditBotForm.documentUrls docs).
Proof.
  unfold EditBotForm.documentUrls. intros Hall.
  induction Hall as [| doc docs Hdoc _ IH]; [constructor |].
  cbn [List.filter]. destruct (EditBotForm.isUrlDocument doc); [| exact IH].
  cbn [map]. constructor; [now apply occurs_substringFrom | exact IH].
Qed.

Lemma urlRequest_trim (botId u : string) :
  Handler.urlRequest botId (Str.trim u) = Handler.urlRequest botId u.
Proof. unfold Handler.urlRequest. now rewrite trim_idem. Qed.

Lemma map_urlRequest_trim (botId : string) (us : list string) :
  map (Handler.urlRequest botId) (map Str.trim us) = map (Handler.urlRequest botId) us.
Proof.
  rewrite map_map. apply map_ext. intros u. apply urlRequest_trim.
Qed.

(** The submissions that a save makes for a URL field filled by
    [loadExistingDocuments]: one per URL document that is not blank. *)
Lemma resubmitted_urls (botId : string) (docs : list EditBotForm.Document) :
  Forall (fun doc => EditBotForm.occurs Str.newline (EditBotForm.filename doc) = false) docs ->
  map (Handler.urlRequest botId) (Handler.urlList (EditBotForm.extractedUrls docs))
  = map (Handler.urlRequest botId)
      (List.filter Lines.nonblank (EditBotForm.documentUrls docs)).
Proof.
  intros Hall.
  rewrite <- (map_urlRequest_trim botId (Handler.urlList _)), urlList_entries.
  unfold EditBotForm.extractedUrls.
  rewrite entries_concat by now apply documentUrls_no_newline.
  unfold Lines.entries. apply map_urlRequest_trim.
Qed.

Lemma loadExistingDocuments_urls (botId : string) (docs : list EditBotForm.Document)
  (chunks : Http.outcome (option (list EditBotForm.Chunk))) (st : EditBotForm.State) :
  Str.trim (EditBotForm.extractedUrls docs) <> "" ->
  EditBotForm.loadExistingDocuments botId (Http.Resolved docs) chunks st
  = ({| EditBotForm.existingDocuments := docs;
        EditBotForm.urls := EditBotForm.extractedUrls docs;
        EditBotForm.error := EditBotForm.error st;
        EditBotForm.success := EditBotForm.success st |},
     [EditBotForm.documentsRequest botId]).
Proof.
  intros Hn. apply truthy_true_iff in Hn.
  unfold EditBotForm.loadExistingDocuments. now rewrite Hn.
Qed.

(** X14: no submission of a URL is blank.  Every URL that the loops of
    [handleBuildBot] and [handleUpdateBot] submit for the URL field is a
    line of the field that is not blank, sent without the white space
    around it, and it holds no line break. *)
Theorem submitted_urls_are_clean (botId urls : string) (r : Http.request) :
  In r (map (Handler.urlRequest botId) (Handler.urlList urls)) ->
  exists v,
    r = Http.post (String.append "/api/bots/" (String.append botId "/documents/url"))
          (Http.Json (Js.Obj [("url", Js.Str v)])) []
    /\ v <> ""
    /\ Str.trim v = v
    /\ EditBotForm.occurs Str.newline v = false.
Proof.
  intros Hin. apply in_map_iff in Hin as (u & <- & Hu).
  unfold Handler.urlList in Hu. apply filter_In in Hu as [Hline Hnb].
  exists (Str.trim u). split; [reflexivity |]. split; [now apply truthy_true_iff |].
  split; [apply trim_idem |].
  apply occurs_trim.
  pose proof (split_pieces Str.newline (Str.trim urls)) as Hall.
  rewrite Forall_forall in Hall. apply Hall. now apply list_elem_of_In.
Qed.

Lemma submitted_urls_are_clean_witness :
  exists v,
    Handler.urlRequest "bot-7" "https://up.example"
    = Http.post (String.append "/api/bots/" (String.append "bot-7" "/documents/url"))
        (Http.Json (Js.Obj [("url", Js.Str v)])) []
    /\ v <> ""
    /\ Str.trim v = v
    /\ EditBotForm.occurs Str.newline v = false.
Proof.
  refine (submitted_urls_are_clean "bot-7" (EditBot.urls Sample.two_urls)
            (Handler.urlRequest "bot-7" "https://up.example") _).
  vm_compute. right. left. reflexivity.
Defined.

(** ** The options and documents of [EditBot] *)

(** X15: removing a menu option.  An index inside the list removes the
    option at that index and nothing else: the options before it stay in
    place, the options after it move up by one; an index outside the list
    removes nothing; and removing the option that Add has just appended
    gives back the list as it was. *)
Theorem remove_menu_option_shifts (index : nat) (menuOptions : list MenuOption) :
  (index < length menuOptions ->
   length (EditBotForm.handleRemoveMenuOption index menuOptions)
   = length menuOptions - 1)
  /\ (forall j, j < index ->
        EditBotForm.handleRemoveMenuOption index menuOptions !! j = menuOptions !! j)
  /\ (forall j, index <= j ->
        EditBotForm.handleRemoveMenuOption index menuOptions !! j = menuOptions !! S j)
  /\ (length menuOptions <= index ->
      EditBotForm.handleRemoveMenuOption index menuOptions = menuOptions)
  /\ EditBotForm.handleRemoveMenuOption (length menuOptions)
       (EditBotForm.handleAddMenuOption menuOptions)
     = menuOptions.
Proof.
  unfold EditBotForm.handleRemoveMenuOption, EditBotForm.handleAddMenuOption.
  repeat split.
  - intros Hi. rewrite length_delete; [lia |].
    now apply lookup_lt_is_Some_2.
  - intros j Hj. now apply list_lookup_delete_lt.
  - intros j Hj. now apply list_lookup_delete_ge.
  - intros Hi. rewrite delete_take_drop, take_ge, drop_ge by lia.
    apply app_nil_r.
  - rewrite (delete_middle menuOptions []). apply app_nil_r.
Qed.

Lemma remove_menu_option_shifts_witness :
  EditBotForm.handleRemoveMenuOption 5 [Sample.pricing] = [Sample.pricing].
Proof.
  refine (proj1 (proj2 (proj2 (proj2
            (remove_menu_option_shifts 5 [Sample.pricing])))) _).
  simpl. lia.
Defined.

(** X16: editing a menu option.  A change at an index inside the list
    writes the one field of the one option: the list keeps its length,
    the option at the index keeps its other field, every other option is
    untouched.  An index outside the list is an error. *)
Theorem change_menu_option_is_local (index : nat) (field : EditBotForm.Field)
  (value : string) (menuOptions : list MenuOption) :
  (length menuOptions <= index <->
   EditBotForm.handleMenuOptionChange index field value menuOptions = None)
  /\ (forall changed,
        EditBotForm.handleMenuOptionChange index field value menuOptions = Some changed ->
        length changed = length menuOptions
        /\ (forall j, j <> index -> changed !! j = menuOptions !! j)
        /\ exists before after,
             menuOptions !! index = Some before
             /\ changed !! index = Some after
             /\ match field with
                | EditBotForm.option_name_field =>
                    option_name after = value /\ prompt after = prompt before
                | EditBotForm.prompt_field =>
                    prompt after = value /\ option_name after = option_name before
                end).
Proof.
  unfold EditBotForm.handleMenuOptionChange. split.
  - destruct (menuOptions !! index) as [o |] eqn:Ho.
    + split; [| discriminate]. intros Hi.
      apply lookup_lt_Some in Ho. lia.
    + split; [reflexivity |]. intros _. now apply lookup_ge_None.
  - intros changed H.
    destruct (menuOptions !! index) as [o |] eqn:Ho; [| discriminate].
    injection H as <-. pose proof (lookup_lt_Some _ _ _ Ho) as Hi.
    split; [apply length_insert |]. split.
    + intros j Hj. now apply list_lookup_insert_ne.
    + exists o, (EditBotForm.setField field value o).
      split; [reflexivity |]. split; [now apply list_lookup_insert_eq |].
      now destruct field.
Qed.

Lemma change_menu_option_is_local_witness :
  EditBotForm.handleMenuOptionChange 2 EditBotForm.prompt_field "What does it cost?"
    [Sample.pricing]
  = None.
Proof.
  refine (proj1 (proj1 (change_menu_option_is_local 2 EditBotForm.prompt_field
                          "What does it cost?" [Sample.pricing])) _).
  simpl. lia.
Defined.

(** X17: saving a bot submits again every URL that is already in its
    knowledge base.  [loadExistingDocuments] writes the URLs of the URL
    documents into the URL field, and a save with that field submits one
    request per such URL that is not blank, in the order of the documents,
    besides the update itself. *)
Theorem loaded_urls_are_submitted_again (net : Handler.network) (botId : string)
  (docs : list EditBotForm.Document)
  (chunks : Http.outcome (option (list EditBotForm.Chunk)))
  (form : EditBotForm.State) (st : EditBot.State) :
  Forall (fun doc => EditBotForm.occurs Str.newline (EditBotForm.filename doc) = false) docs ->
  Str.trim (EditBotForm.extractedUrls docs) <> "" ->
  EditBot.urls st
  = EditBotForm.urls
      (fst (EditBotForm.loadExistingDocuments botId (Http.Resolved docs) chunks form)) ->
  Str.trim (EditBot.botName st) <> "" ->
  EditBotForm.acceptsUpdate net botId st ->
  exists avatarUrl,
    snd (EditBot.handleUpdateBot net botId st)
    = match EditBot.botAvatarFile st with
      | Some file => [EditBotForm.avatarRequest botId file]
      | None => []
      end
      ++ [EditBot.updateBot botId avatarUrl st]
      ++ map (Handler.documentRequest botId) (default [] (EditBot.selectedFiles st))
      ++ map (Handler.urlRequest botId)
           (List.filter Lines.nonblank (EditBotForm.documentUrls docs))
      ++ [Http.get (String.append "/api/bots/" botId)].
Proof.
  intros Hlines Hurls Hcell Hname Hacc.
  rewrite loadExistingDocuments_urls in Hcell by exact Hurls. cbn in Hcell.
  destruct (handleUpdateBot_accepted net botId st Hname Hacc) as (avatarUrl & Hlog & _).
  exists avatarUrl. rewrite Hlog, Hcell. now rewrite resubmitted_urls.
Qed.

Lemma loaded_urls_are_submitted_again_witness :
  exists avatarUrl,
    snd (EditBot.handleUpdateBot Cases.friendly "bot-7" Cases2.reloaded)
    = [] ++ [EditBot.updateBot "bot-7" avatarUrl Cases2.reloaded] ++ []
      ++ [Handler.urlRequest "bot-7" "https://shop.example/refunds";
          Handler.urlRequest "bot-7" "https://shop.example/shipping"]
      ++ [Http.get "/api/bots/bot-7"].
Proof.
  refine (loaded_urls_are_submitted_again Cases.friendly "bot-7"
            [Cases2.refunds_page; Cases2.manual; Cases2.shipping_page]
            (Http.Resolved None) Cases2.blankForm Cases2.reloaded _ _ _ _ _).
  - repeat constructor.
  - vm_compute. discriminate.
  - reflexivity.
  - vm_compute. discriminate.
  - repeat split; intros; eexists; reflexivity.
Defined.

(** ** A menu option without a prompt *)

Lemma begin_keeps_input_empty (botId : string) (mc : option string) (st : Page.State) :
  Page.inputMessage st = "" ->
  Page.inputMessage (fst (TestBot.sendMessage_begin botId mc st)) = "".
Proof.
  intros Hi. unfold TestBot.sendMessage_begin, Page.sendMessage_begin.
  destruct (negb (Str.truthy (Str.trim (Page.effective_content mc st)))
            || Page.isLoading st); [exact Hi |].
  cbn [fst]. now destruct (negb (truthy mc)).
Qed.

Lemma settle_keeps_input (o : Http.outcome Response.data) (st : Page.State) :
  Page.inputMessage (TestBot.sendMessage_settle o st) = Page.inputMessage st.
Proof.
  unfold TestBot.sendMessage_settle, Page.sendMessage_settle.
  destruct o as [e | d]; [reflexivity |].
  now destruct (TestBot.assistantMessage d).
Qed.

Lemma restartChat_input (st : Page.State) :
  Page.inputMessage (TestBot.restartChat st) = "".
Proof.
  unfold TestBot.restartChat. destruct (Page.bot st) as [b |]; [| reflexivity].
  now destruct (truthy (greeting_message b)).
Qed.

(** The page never fills its own input field: it stays empty. *)
Lemma run_keeps_input_empty (botId : string) (es : list Mounted.Event)
  (m : Mounted.State) :
  Page.inputMessage (Mounted.page m) = "" ->
  Page.inputMessage (Mounted.page (fst (Mounted.run botId es m))) = "".
Proof.
  revert m. induction es as [| e es IH]; intros m Hi; [exact Hi |].
  rewrite run_cons. cbn [fst]. apply IH.
  destruct (step_page botId m e)
    as [[-> _] | [(message & -> & _) | [[-> _] | [[-> _] | (o & _ & _ & -> & _)]]]].
  - exact Hi.
  - now apply begin_keeps_input_empty.
  - reflexivity.
  - apply restartChat_input.
  - now rewrite settle_keeps_input.
Qed.

(** X19: a menu option whose prompt is empty or blank, such as the one
    that Add Option of the editor appends, gives a button that does
    nothing: whatever happened on the page before, a click on it sends no
    request and changes neither the history nor the widget. *)
Theorem blank_option_button_does_nothing (botId : string) (o : Http.outcome Bot)
  (es : list Mounted.Event) (option : MenuOption) :
  Str.trim (prompt option) = "" ->
  Mounted.step botId
    (fst (Mounted.run botId es
            {| Mounted.widget := Mounted.initialWidget;
               Mounted.page := fst (Mounted.loadBot_settle o Mounted.initialPage) |}))
    (Mounted.ClickOption option)
  = (fst (Mounted.run botId es
            {| Mounted.widget := Mounted.initialWidget;
               Mounted.page := fst (Mounted.loadBot_settle o Mounted.initialPage) |}),
     []).
Proof.
  intros Hblank.
  set (m := fst (Mounted.run botId es _)).
  assert (Hi : Page.inputMessage (Mounted.page m) = "").
  { apply run_keeps_input_empty. cbn [Mounted.page].
    destruct o as [e | data]; [reflexivity |].
    unfold Mounted.loadBot_settle. cbn [fst].
    now destruct (truthy (greeting_message data)). }
  unfold Mounted.step, Mounted.withWidget, ChatWidget.handleMenuOptionClick.
  cbn [fst snd]. rewrite deliver_onSend. unfold TestBot.sendMessage_begin.
  rewrite (begin_rejected botId (Some (prompt option)) (Mounted.page m)).
  - now destruct m.
  - left. now apply blank_argument_blank_content.
Qed.

Lemma blank_option_button_does_nothing_witness :
  Mounted.step "bot-7"
    (fst (Mounted.run "bot-7" [Mounted.Open]
            {| Mounted.widget := Mounted.initialWidget;
               Mounted.page :=
                 fst (Mounted.loadBot_settle (Http.Resolved Sample.helper)
                        Mounted.initialPage) |}))
    (Mounted.ClickOption {| option_name := ""; prompt := "" |})
  = (fst (Mounted.run "bot-7" [Mounted.Open]
            {| Mounted.widget := Mounted.initialWidget;
               Mounted.page :=
                 fst (Mounted.loadBot_settle (Http.Resolved Sample.helper)
                        Mounted.initialPage) |}),
     []).
Proof.
  refine (blank_option_button_does_nothing "bot-7" (Http.Resolved Sample.helper)
            [Mounted.Open] {| option_name := ""; prompt := "" |} _).
  reflexivity.
Defined.

(** ** The session token *)

Lemma header_setHeader (k v : string) (hs : list (string * string)) :
  Client.header k (Client.setHeader k v hs) = Some v.
Proof.
  induction hs as [| [k' v'] hs IH]; simpl.
  - now rewrite String.eqb_refl.
  - destruct (String.eqb k k') eqn:Hk; simpl.
    + now rewrite String.eqb_refl.
    + now rewrite Hk.
Qed.

Lemma header_setHeader_other (k k0 v : string) (hs : list (string * string)) :
  k0 <> k ->
  Client.header k0 (Client.setHeader k v hs) = Client.header k0 hs.
Proof.
  intros Hne. induction hs as [| [k' v'] hs IH]; simpl.
  - destruct (String.eqb k0 k) eqn:H0; [| reflexivity].
    apply String.eqb_eq in H0. contradiction.
  - destruct (String.eqb k k') eqn:Hk; simpl.
    + apply String.eqb_eq in Hk. subst k'.
      destruct (String.eqb k0 k) eqn:H0; [| reflexivity].
      apply String.eqb_eq in H0. contradiction.
    + now rewrite IH.
Qed.

Lemma intercept_with_token (e : Browser.env) (token : string) (config : Http.request) :
  Browser.getItem "supabase_token" e = Some token ->
  token <> "" ->
  Client.header "Authorization" (Http.headers (Client.interceptRequest e config))
  = Some (String.append "Bearer " token)
  /\ (forall k, k <> "Authorization" ->
        Client.header k (Http.headers (Client.interceptRequest e config))
        = Client.header k (Http.headers config))
  /\ Http.verb (Client.interceptRequest e config) = Http.verb config
  /\ Http.url (Client.interceptRequest e config) = Http.url config
  /\ Http.data (Client.interceptRequest e config) = Http.data config.
Proof.
  intros Hget Hne. apply truthy_true_iff in Hne.
  unfold Client.interceptRequest. rewrite Hget, Hne. cbn.
  split; [apply header_setHeader |]. split; [| now repeat split].
  intros k Hk. now apply header_setHeader_other.
Qed.

Lemma intercept_without_token (e : Browser.env) (config : Http.request) :
  Browser.getItem "supabase_token" e = None ->
  Client.interceptRequest e config = config.
Proof. intros Hget. unfold Client.interceptRequest. now rewrite Hget. Qed.

(** X20: the stored token follows the session.  After the listener of
    [useAuth] has seen a session, every request that passes the
    interceptor of the API client carries the access token of that
    session as its Authorization header, in place of any older one, and
    is otherwise unchanged; after it has seen the end of the session, the
    interceptor adds nothing. *)
Theorem token_follows_the_session (s : option Supabase.Session) (st : UseAuth.State)
  (e : Browser.env) (config : Http.request) :
  Browser.getItem "supabase_token" (snd (UseAuth.onAuthStateChange s st e))
  = option_map Supabase.access_token s
  /\ (forall s', s = Some s' -> Supabase.access_token s' <> "" ->
        Client.header "Authorization"
          (Http.headers
             (Client.interceptRequest (snd (UseAuth.onAuthStateChange s st e)) config))
        = Some (String.append "Bearer " (Supabase.access_token s'))
        /\ Http.data (Client.interceptRequest (snd (UseAuth.onAuthStateChange s st e)) config)
           = Http.data config
        /\ Http.url (Client.interceptRequest (snd (UseAuth.onAuthStateChange s st e)) config)
           = Http.url config)
  /\ (s = None ->
      Client.interceptRequest (snd (UseAuth.onAuthStateChange s st e)) config = config).
Proof.
  assert (Hget : Browser.getItem "supabase_token" (snd (UseAuth.onAuthStateChange s st e))
                 = option_map Supabase.access_token s).
  { destruct s as [s' |]; cbn; unfold Browser.getItem; cbn.
    - apply lookup_insert_eq.
    - apply lookup_delete_eq. }
  split; [exact Hget |]. split.
  - intros s' -> Hne.
    destruct (intercept_with_token _ (Supabase.access_token s') config Hget Hne)
      as (H1 & _ & _ & H2 & H3).
    auto.
  - intros ->. now apply intercept_without_token.
Qed.

Lemma token_follows_the_session_witness :
  Client.header "Authorization"
    (Http.headers
       (Client.interceptRequest
          (snd (UseAuth.onAuthStateChange (Some Cases3.alice) Cases3.signedOut
                  Cases3.returning))
          (Page.chatRequest "bot-7" "Hello")))
  = Some "Bearer tok-alice".
Proof.
  refine (proj1 (proj1 (proj2 (token_follows_the_session (Some Cases3.alice)
                                 Cases3.signedOut Cases3.returning
                                 (Page.chatRequest "bot-7" "Hello")))
                   Cases3.alice _ _)).
  - reflexivity.
  - discriminate.
Defined.

(** X21: a confirmed logout always logs out.  Whether [signOut] returns
    or throws, the token is removed, the route is the login page, and the
    interceptor adds no Authorization header to later requests; nothing
    else in the storage is touched.  A declined logout changes nothing. *)
Theorem confirmed_logout_always_clears_token (signedOut : bool) (e : Browser.env)
  (config : Http.request) :
  Browser.getItem "supabase_token" (UseAuth.handleLogout true signedOut e) = None
  /\ Browser.location (UseAuth.handleLogout true signedOut e) = "/"
  /\ Client.interceptRequest (UseAuth.handleLogout true signedOut e) config = config
  /\ (forall k, k <> "supabase_token" ->
        Browser.getItem k (UseAuth.handleLogout true signedOut e) = Browser.getItem k e)
  /\ UseAuth.handleLogout false signedOut e = e.
Proof.
  assert (Hget : Browser.getItem "supabase_token" (UseAuth.handleLogout true signedOut e)
                 = None).
  { unfold UseAuth.handleLogout, Browser.getItem.
    destruct signedOut; cbn; apply lookup_delete_eq. }
  split; [exact Hget |]. split; [now destruct signedOut |].
  split; [now apply intercept_without_token |]. split; [| reflexivity].
  intros k Hk. unfold UseAuth.handleLogout, Browser.getItem.
  destruct signedOut; cbn; now apply lookup_delete_ne.
Qed.

Lemma confirmed_logout_always_clears_token_witness :
  Browser.getItem "theme" (UseAuth.handleLogout true false Cases3.returning)
  = Browser.getItem "theme" Cases3.returning.
Proof.
  refine (proj1 (proj2 (proj2 (proj2
            (confirmed_logout_always_clears_token false Cases3.returning
               (Page.chatRequest "bot-7" "Hello"))))) "theme" _).
  discriminate.
Defined.

(** X22: what a login leaves behind.  [handleLogin] always ends with
    [loading] off.  When sign-in returns an error or throws, the browser
    is untouched: no token is stored and the route stays.  When sign-in
    returns without error, the route is the dashboard, and the token is
    stored exactly when the data hold a session. *)
Theorem login_stores_token_only_with_session (o : Login.SignIn) (st : Login.State)
  (e : Browser.env) :
  Login.loading (fst (Login.handleLogin o st e)) = false
  /\ ((forall session, o <> Login.SignedIn session) ->
      snd (Login.handleLogin o st e) = e)
  /\ (forall s, o = Login.SignedIn (Some s) ->
        Browser.location (snd (Login.handleLogin o st e)) = "/dashboard"
        /\ Browser.getItem "supabase_token" (snd (Login.handleLogin o st e))
           = Some (Supabase.access_token s))
  /\ (o = Login.SignedIn None ->
      Browser.location (snd (Login.handleLogin o st e)) = "/dashboard"
      /\ Browser.localStorage (snd (Login.handleLogin o st e)) = Browser.localStorage e).
Proof.
  split; [now destruct o |]. split.
  - intros Hne. destruct o as [message | session |]; try reflexivity.
    now destruct (Hne session).
  - split.
    + intros s ->. cbn. split; [reflexivity |].
      unfold Browser.getItem. cbn. apply lookup_insert_eq.
    + intros ->. now split.
Qed.

Lemma login_stores_token_only_with_session_witness :
  snd (Login.handleLogin (Login.SignInError "Invalid login credentials")
         Cases3.loginForm Cases3.returning)
  = Cases3.returning
  /\ Browser.getItem "supabase_token"
       (snd (Login.handleLogin (Login.SignedIn (Some Cases3.alice))
               Cases3.loginForm Cases3.returning))
     = Some "tok-alice".
Proof.
  split.
  - refine (proj1 (proj2 (login_stores_token_only_with_session
                            (Login.SignInError "Invalid login credentials")
                            Cases3.loginForm Cases3.returning)) _).
    discriminate.
  - refine (proj2 (proj1 (proj2 (proj2 (login_stores_token_only_with_session
                                          (Login.SignedIn (Some Cases3.alice))
                                          Cases3.loginForm Cases3.returning)))
                     Cases3.alice _)).
    reflexivity.
Defined.

(** ** Themes *)

(** X23: the theme that one component sets is the theme that a component
    mounted later starts with, through [localStorage]; an empty theme
    name comes back as the default theme.  Setting the theme touches no
    other key of the storage, the session token among them. *)
Theorem theme_survives_remount (theme : string) (e : Browser.env) :
  (theme <> "" -> Theme.mount (snd (Theme.setTheme theme e)) = theme)
  /\ (theme = "" -> Theme.mount (snd (Theme.setTheme theme e)) = "default")
  /\ (forall k, k <> "theme" ->
        Browser.getItem k (snd (Theme.setTheme theme e)) = Browser.getItem k e).
Proof.
  unfold Theme.mount, Theme.setTheme, Browser.getItem. cbn.
  rewrite lookup_insert_eq. repeat split.
  - intros Hne. apply truthy_true_iff in Hne. now rewrite Hne.
  - now intros ->.
  - intros k Hk. now apply lookup_insert_ne.
Qed.

Lemma theme_survives_remount_witness :
  Theme.mount (snd (Theme.setTheme "purple" Cases3.returning)) = "purple"
  /\ Browser.getItem "supabase_token" (snd (Theme.setTheme "purple" Cases3.returning))
     = Browser.getItem "supabase_token" Cases3.returning.
Proof.
  split.
  - refine (proj1 (theme_survives_remount "purple" Cases3.returning) _). discriminate.
  - refine (proj2 (proj2 (theme_survives_remount "purple" Cases3.returning))
              "supabase_token" _).
    discriminate.
Defined.

(** X24: every theme has the colours of the default theme.  The table of
    themes holds the default theme only, so that [useTheme] gives its
    colours for every theme name that is not a member of
    [Object.prototype], and in particular for each of the four themes
    that [ThemeWidget] offers. *)
Theorem every_theme_is_the_default (theme : string) :
  (existsb (String.eqb theme) Theme.objectPrototypeMembers = false ->
   Theme.themeConfig theme = Some Theme.defaultConfig)
  /\ Forall (fun choice => Theme.themeConfig (Theme.id choice) = Some Theme.defaultConfig)
       Theme.themes.
Proof.
  split.
  - intros Hp. unfold Theme.themeConfig, Theme.themeConfigs.
    destruct (String.eqb theme "default"); [reflexivity |]. now rewrite Hp.
  - repeat constructor.
Qed.

Lemma every_theme_is_the_default_witness :
  Theme.themeConfig "dark" = Some Theme.defaultConfig.
Proof.
  refine (proj1 (every_theme_is_the_default "dark") _). reflexivity.
Defined.

(** ** The countdown of [Signup] *)

Lemma after_S (k : nat) (st : Signup.State) :
  Signup.after (S k) st = Signup.tick (Signup.after k st).
Proof. reflexivity. Qed.

Lemma countdown_running (st : Signup.State) (n k : nat) :
  Signup.countdown st = Z.of_nat n ->
  k < n ->
  Signup.after k (Signup.handleSignup Signup.SignedUp st)
  = {| Signup.loading := false; Signup.error := ""; Signup.success := true;
       Signup.countdown := Z.of_nat n - Z.of_nat k; Signup.timer := true;
       Signup.location := Signup.location st |}.
Proof.
  intros Hc. induction k as [| k IH]; intros Hk.
  - cbn. rewrite Hc. f_equal. lia.
  - rewrite after_S, IH by lia.
    unfold Signup.tick. cbn.
    destruct (Z.leb_spec (Z.of_nat n - Z.of_nat k) 1); [lia |].
    f_equal. lia.
Qed.

Lemma countdown_done (st : Signup.State) (n k : nat) :
  Signup.countdown st = Z.of_nat n ->
  1 <= n ->
  n <= k ->
  Signup.after k (Signup.handleSignup Signup.SignedUp st)
  = {| Signup.loading := false; Signup.error := ""; Signup.success := true;
       Signup.countdown := 0; Signup.timer := false; Signup.location := "/" |}.
Proof.
  intros Hc Hn. induction k as [| k IH]; intros Hk; [lia |].
  rewrite after_S.
  destruct (Nat.eq_dec n (S k)) as [-> | Hne].
  - rewrite (countdown_running st (S k) k Hc (Nat.lt_succ_diag_r k)).
    unfold Signup.tick. cbn.
    destruct (Z.leb_spec (Z.of_nat (S k) - Z.of_nat k) 1); [reflexivity | lia].
  - rewrite IH by lia. reflexivity.
Qed.

(** X25: the countdown after a successful sign-up.  From a count of [n]
    seconds, at least one, the page shows [n - k] after [k] seconds and
    stays where it is as long as [k < n]; at the [n]-th second it shows 0,
    goes to the login page and stops its timer, and later seconds change
    nothing. *)
Theorem signup_countdown_reaches_login (st : Signup.State) (n k : nat) :
  Signup.countdown st = Z.of_nat n ->
  1 <= n ->
  (k < n ->
   Signup.countdown (Signup.after k (Signup.handleSignup Signup.SignedUp st))
   = (Z.of_nat n - Z.of_nat k)%Z
   /\ Signup.location (Signup.after k (Signup.handleSignup Signup.SignedUp st))
      = Signup.location st
   /\ Signup.timer (Signup.after k (Signup.handleSignup Signup.SignedUp st)) = true)
  /\ (n <= k ->
      Signup.countdown (Signup.after k (Signup.handleSignup Signup.SignedUp st)) = 0%Z
      /\ Signup.location (Signup.after k (Signup.handleSignup Signup.SignedUp st)) = "/"
      /\ Signup.timer (Signup.after k (Signup.handleSignup Signup.SignedUp st)) = false).
Proof.
  intros Hc Hn. split.
  - intros Hk. rewrite (countdown_running st n k Hc Hk). now repeat split.
  - intros Hk. rewrite (countdown_done st n k Hc Hn Hk). now repeat split.
Qed.

Lemma signup_countdown_reaches_login_witness :
  (Signup.countdown (Signup.after 3 (Signup.handleSignup Signup.SignedUp Cases3.signupForm))
   = 2%Z
   /\ Signup.location (Signup.after 3 (Signup.handleSignup Signup.SignedUp Cases3.signupForm))
      = "/signup")
  /\ Signup.location (Signup.after 5 (Signup.handleSignup Signup.SignedUp Cases3.signupForm))
     = "/".
Proof.
  split.
  - destruct (proj1 (signup_countdown_reaches_login Cases3.signupForm 5 3 eq_refl
                       ltac:(lia)) ltac:(lia)) as (H1 & H2 & _).
    split; [exact H1 | exact H2].
  - refine (proj1 (proj2 (proj2 (signup_countdown_reaches_login Cases3.signupForm 5 5
                                   eq_refl _) _))); lia.
Defined.

(** ** [Profile] *)


